(** * Solenoid autocalibration analysis (GridMaze): a shallow embedding

    Embedding of [GridMaze/solenoid_autocalibation/code/autocalibration_script.py].
    The script loads the most recent pyControl calibration log, derives the
    volume of a single release for every event, fits release duration against
    release volume per poke (independently, and with one mixed effects model),
    optionally plots the fits and writes one of the two fit collections to a
    text file.

    Python exceptions are values of [exn]; code that can raise returns a
    [result]; code that also touches the file system, the console or the screen
    runs in the monad [Py] over an explicit [World].  The numeric libraries the
    script calls (pandas' date and csv parsers, [ast.literal_eval],
    [numpy.polyfit], statsmodels' [mixedlm]) are not part of the repository:
    they are the fields of the record [Externals].  Arithmetic is kept behind
    the class [Arith], with exact rationals and IEEE binary64 as instances;
    the script itself computes in binary64. *)

From Stdlib Require Import ZArith QArith Qround Qabs Qminmax Lia Lqa Floats Ascii DecimalString DecimalN.
From stdpp Require Import base option list gmap strings.

(** ** Exceptions and results *)

Inductive exn : Type :=
| FileNotFoundError (path : string)
| IndexError (what : string)
| ValueError (msg : string)
| TypeError (msg : string)
| AssertionError (msg : string)
| AttributeError (attr : string)
| KeyError (key : string)
| OSError (path : string)
| LibraryError (msg : string).

Inductive result (A : Type) : Type :=
| Ok (a : A)
| Raise (e : exn).
Arguments Ok {A} a.
Arguments Raise {A} e.

Definition result_bind {A B} (r : result A) (k : A → result B) : result B :=
  match r with
  | Ok a => k a
  | Raise e => Raise e
  end.

#[global] Instance result_ret : MRet result := λ A a, Ok a.
#[global] Instance result_mbind : MBind result := λ A B k r, result_bind r k.

(** [[f(x) for x in l]] with an [f] that can raise: the first exception ends
    the comprehension. *)
Fixpoint list_comprehension {A B} (f : A → result B) (l : list A) : result (list B) :=
  match l with
  | [] => Ok []
  | x :: l' =>
      match f x with
      | Raise e => Raise e
      | Ok y =>
          match list_comprehension f l' with
          | Raise e => Raise e
          | Ok ys => Ok (y :: ys)
          end
      end
  end.

(** ** Arithmetic

    The cells of the event table and the fitted parameters are Python / numpy
    floats.  The script needs [abs], addition, multiplication, division,
    [round(x, d)] (here [nround x d]) and the constant 1000; negation is there
    to speak of a weight of the other sign. *)

Class Arith (num : Type) : Type := {
  nabs : num → num;
  nopp : num → num;
  nadd : num → num → num;
  nmul : num → num → num;
  ndiv : num → num → num;
  nround : num → Z → num;
  of_int : Z → num;
}.

(** ** The event table

    One row of the pyControl log as [pd.read_csv] delivers it (the columns the
    script reads), the dictionary a [print] line holds, and one row of
    [autocal_df] after the loader has added the derived column. *)

Record tsv_row : Type := {
  subtype : string;
  content : string;
}.

Record RawEvent (num : Type) : Type := {
  raw_poke : string;
  raw_release_duration : num;
  raw_release_weight : num;
  raw_n_release : num;
}.
Arguments raw_poke {num} _.
Arguments raw_release_duration {num} _.
Arguments raw_release_weight {num} _.
Arguments raw_n_release {num} _.

Record Event (num : Type) : Type := {
  poke : string;
  release_duration : num;
  release_weight : num;
  n_release : num;
  single_release_vol : num;
}.
Arguments poke {num} _.
Arguments release_duration {num} _.
Arguments release_weight {num} _.
Arguments n_release {num} _.
Arguments single_release_vol {num} _.

(** ** Fit parameters and the data frames that hold them *)

(** The inner dictionary [{"s": slope, "i": intercept}]. *)
Record FitParams (num : Type) : Type := {
  fit_s : num;
  fit_i : num;
}.
Arguments fit_s {num} _.
Arguments fit_i {num} _.

(** A pandas data frame of numbers: row labels, column labels and the cells,
    row by row. *)
Record DataFrame (num : Type) : Type := {
  df_index : list string;
  df_columns : list string;
  df_values : list (list num);
}.
Arguments df_index {num} _.
Arguments df_columns {num} _.
Arguments df_values {num} _.

(** What [MixedLM.fit] returns, as far as the script reads it: the fixed
    effects and, per group, the random effects. *)
Record RandomEffect (num : Type) : Type := {
  re_Group : num;
  re_single_release_vol : num;
}.
Arguments re_Group {num} _.
Arguments re_single_release_vol {num} _.

Record MixedLMResults (num : Type) : Type := {
  fe_Intercept : num;
  fe_single_release_vol : num;
  random_effects : list (string * RandomEffect num);
}.
Arguments fe_Intercept {num} _.
Arguments fe_single_release_vol {num} _.
Arguments random_effects {num} _.

(** ** Timestamps

    What [pd.to_datetime] returns for one string without raising: [NaT] (for
    the empty string, among others), or an instant, tz-naive or tz-aware.  The
    integer places the instant on the time line (for an aware stamp: on the
    UTC time line). *)

Inductive Timestamp : Type :=
| NaT
| Instant (aware : bool) (t : Z).

(** ** Library functions the script calls

    [to_datetime] is [pd.to_datetime] on a string; [read_csv] is
    [pd.read_csv(..., sep="\t")] on the text of a file, projected on the two
    columns the script reads; [literal_eval] is
    [ast.literal_eval] on the content of a [print] line, its value the
    dictionary of one event; [polyfit xs ys] is [np.polyfit(x, y, deg=1)],
    returning (slope, intercept); [mixedlm_fit] is [smf.mixedlm(...)] with the
    formula, groups and random effects formula of the script, then
    [.fit(method=["lbfgs"])]; [float_repr] is [repr] on a float. *)

Record Externals (num : Type) : Type := {
  to_datetime : string → result Timestamp;
  read_csv : string → result (list tsv_row);
  literal_eval : string → result (RawEvent num);
  polyfit : list num → list num → result (num * num);
  mixedlm_fit : list (Event num) → result (MixedLMResults num);
  float_repr : num → string;
}.
Arguments to_datetime {num} _.
Arguments read_csv {num} _.
Arguments literal_eval {num} _.
Arguments polyfit {num} _.
Arguments mixedlm_fit {num} _.
Arguments float_repr {num} _.

(** ** The world a run acts on

    Directory listings in the order [os.listdir] returns them, the text of
    every file, modification times, the paths [open(path, "w")] can open,
    the clock, what was printed and the figures shown.  Files and directories
    are known by the text of their path: two texts that name one file are two
    keys here. *)

Record World (num : Type) : Type := {
  listdir : gmap string (list string);
  files : gmap string string;
  mtime : gmap string Z;
  writable : string → bool;
  clock : Z;
  stdout : list string;
  figures : list (list (Event num) * DataFrame num);
}.
Arguments listdir {num} _.
Arguments files {num} _.
Arguments mtime {num} _.
Arguments writable {num} _.
Arguments clock {num} _.
Arguments stdout {num} _.
Arguments figures {num} _.

(** Statements that read or change the world and may raise. *)
Definition Py (num A : Type) : Type := World num → result A * World num.

Definition py_ret {num A} (a : A) : Py num A := λ w, (Ok a, w).

Definition py_bind {num A B} (c : Py num A) (k : A → Py num B) : Py num B :=
  λ w, match c w with
       | (Ok a, w') => k a w'
       | (Raise e, w') => (Raise e, w')
       end.

Definition py_raise {num A} (e : exn) : Py num A := λ w, (Raise e, w).

Definition py_lift {num A} (r : result A) : Py num A := λ w, (r, w).

#[global] Instance py_mret {num} : MRet (Py num) := λ A a, py_ret a.
#[global] Instance py_mbind {num} : MBind (Py num) := λ A B k c, py_bind c k.

(** ** Python built-ins used by the script *)

(** [s.endswith(suffix)] *)
Definition endswith (s suffix : string) : bool :=
  let n := String.length s in
  let k := String.length suffix in
  bool_decide (k ≤ n) && String.eqb (String.substring (n - k) k s) suffix.

(** [s.partition(sep)] for a one character separator: the text before the
    first [sep] and the text after it; [None] when [s] has no [sep]. *)
Fixpoint partition (sep : Ascii.ascii) (s : string) : option (string * string) :=
  match s with
  | EmptyString => None
  | String c s' =>
      if Ascii.eqb c sep then Some (EmptyString, s')
      else match partition sep s' with
           | Some (before, after) => Some (String c before, after)
           | None => None
           end
  end.

(** [s.split(sep, 1)[1]]: [IndexError] when [s] has no [sep]. *)
Definition split_once_tail (sep : Ascii.ascii) (s : string) : result string :=
  match partition sep s with
  | Some (_, after) => Ok after
  | None => Raise (IndexError "list index out of range")
  end.

(** [s.split(sep)[0]] *)
Definition split_head (sep : Ascii.ascii) (s : string) : string :=
  match partition sep s with
  | Some (before, _) => before
  | None => s
  end.

(** [a > b] on timestamps: every comparison with [NaT] is false, and a naive
    stamp does not compare with an aware one. *)
Definition timestamp_gt (a b : Timestamp) : result bool :=
  match a, b with
  | Instant aware_a ta, Instant aware_b tb =>
      if Bool.eqb aware_a aware_b then Ok (tb <? ta)%Z
      else Raise (TypeError "Cannot compare tz-naive and tz-aware timestamps")
  | _, _ => Ok false
  end.

(** [a is b or a == b], the test of [list.index]: [NaT] is a single object,
    equal to nothing, itself included, but identical to itself; a naive and an
    aware stamp are not equal. *)
Definition timestamp_is_or_eq (a b : Timestamp) : bool :=
  match a, b with
  | NaT, NaT => true
  | Instant aware_a ta, Instant aware_b tb => Bool.eqb aware_a aware_b && (ta =? tb)%Z
  | _, _ => false
  end.

(** The loop of [max]: the running maximum is replaced by every item that is
    greater than it. *)
Fixpoint max_from (current : Timestamp) (l : list Timestamp) : result Timestamp :=
  match l with
  | [] => Ok current
  | item :: l' =>
      match timestamp_gt item current with
      | Ok greater => max_from (if greater then item else current) l'
      | Raise e => Raise e
      end
  end.

(** [max(l)] on a list of timestamps. *)
Definition py_max (l : list Timestamp) : result Timestamp :=
  match l with
  | [] => Raise (ValueError "max() arg is an empty sequence")
  | x :: l' => max_from x l'
  end.

(** [l.index(x)]: the position of the first element that is [x] or equals
    [x]. *)
Fixpoint py_index (x : Timestamp) (l : list Timestamp) : result nat :=
  match l with
  | [] => Raise (ValueError "x is not in list")
  | y :: l' =>
      if timestamp_is_or_eq y x then Ok 0
      else match py_index x l' with
           | Ok i => Ok (S i)
           | Raise e => Raise e
           end
  end.

(** [l[i]] *)
Definition py_getitem {A} (l : list A) (i : nat) : result A :=
  match l !! i with
  | Some a => Ok a
  | None => Raise (IndexError "list index out of range")
  end.

(** [os.path.join(a, b)] of [posixpath]. *)
Definition os_path_join (a b : string) : string :=
  if String.prefix "/" b then b
  else if bool_decide (a = "") || endswith a "/" then a +:+ b
  else a +:+ "/" +:+ b.

(** The part of a path up to and including its last slash, and the part
    after it; [None] when the path has no slash. *)
Fixpoint rpartition_slash (s : string) : option (string * string) :=
  match s with
  | EmptyString => None
  | String c s' =>
      match rpartition_slash s' with
      | Some (head, tail) => Some (String c head, tail)
      | None => if Ascii.eqb c "/" then Some (String c EmptyString, s') else None
      end
  end.

(** [s.rstrip("/")] *)
Fixpoint rstrip_slash (s : string) : string :=
  match s with
  | EmptyString => EmptyString
  | String c s' =>
      match rstrip_slash s' with
      | EmptyString => if Ascii.eqb c "/" then EmptyString else String c EmptyString
      | rest => String c rest
      end
  end.

(** [os.path.split(path)] of [posixpath]: the directory and the last
    component; the slashes that end the directory are dropped unless it is
    made of slashes only. *)
Definition os_path_split (path : string) : string * string :=
  match rpartition_slash path with
  | None => (EmptyString, path)
  | Some (head, tail) =>
      match rstrip_slash head with
      | EmptyString => (head, tail)
      | stripped => (stripped, tail)
      end
  end.

(** [Series.unique()]: the distinct values in order of first appearance. *)
Fixpoint unique (l : list string) : list string :=
  match l with
  | [] => []
  | x :: l' => x :: filter (λ y, y ≠ x) (unique l')
  end.

(** [d[k] = v] on a dictionary kept as a list of items in insertion order: a
    present key keeps its place, a new key goes last. *)
Fixpoint dict_set {V} (k : string) (v : V) (d : list (string * V)) : list (string * V) :=
  match d with
  | [] => [(k, v)]
  | (k', v') :: d' => if bool_decide (k' = k) then (k, v) :: d' else (k', v') :: dict_set k v d'
  end.

(** [d[k]] *)
Fixpoint dict_get {V} (k : string) (d : list (string * V)) : result V :=
  match d with
  | [] => Raise (KeyError k)
  | (k', v) :: d' => if bool_decide (k' = k) then Ok v else dict_get k d'
  end.

(** The position of a label in an index: [Index.get_loc(label)]. *)
Fixpoint get_loc (label : string) (labels : list string) : result nat :=
  match labels with
  | [] => Raise (KeyError label)
  | l :: labels' =>
      if bool_decide (l = label) then Ok 0
      else match get_loc label labels' with
           | Ok i => Ok (S i)
           | Raise e => Raise e
           end
  end.

(** ** Statements acting on the world *)

Section Statements.
Context {num : Type}.

(** [os.listdir(path)] *)
Definition os_listdir (path : string) : Py num (list string) := λ w,
  match listdir w !! path with
  | Some names => (Ok names, w)
  | None => (Raise (FileNotFoundError path), w)
  end.

(** The text of the file at [path], as [pd.read_csv] opens it. *)
Definition read_text (path : string) : Py num string := λ w,
  match files w !! path with
  | Some text => (Ok text, w)
  | None => (Raise (FileNotFoundError path), w)
  end.

(** [print(line)] *)
Definition print (line : string) : Py num () := λ w,
  (Ok (),
   {| listdir := listdir w; files := files w; mtime := mtime w; writable := writable w;
      clock := clock w; stdout := stdout w ++ [line]; figures := figures w |}).

(** [assert cond, msg] *)
Definition py_assert (cond : bool) (msg : string) : Py num () :=
  if cond then py_ret () else py_raise (AssertionError msg).

(** The listings after a file was created at [path]: [os.listdir] of its
    directory returns the new name too.  Where a new name stands in a listing
    is up to the file system; here it comes last.  A directory is known by the
    text of its path. *)
Definition listing_with (path : string) (listings : gmap string (list string)) :
    gmap string (list string) :=
  let '(directory, name) := os_path_split path in
  match listings !! directory with
  | Some names =>
      if bool_decide (name ∈ names) then listings else <[directory := names ++ [name]]> listings
  | None => listings
  end.

(** [open(path, "w")]: the file is created, or truncated when it is there;
    [OSError] (of which [FileNotFoundError] and [PermissionError] are sub
    classes) when the path cannot be opened for writing. *)
Definition open_w (path : string) : Py num () := λ w,
  if writable w path then
    (Ok (),
     {| listdir := listing_with path (listdir w); files := <[path := EmptyString]> (files w);
        mtime := <[path := clock w]> (mtime w); writable := writable w;
        clock := clock w; stdout := stdout w; figures := figures w |})
  else (Raise (OSError path), w).

(** [f.write(text)] on the file opened at [path]: the text is added at the
    end. *)
Definition f_write (path text : string) : Py num () := λ w,
  (Ok (),
   {| listdir := listdir w;
      files := <[path := default EmptyString (files w !! path) +:+ text]> (files w);
      mtime := <[path := clock w]> (mtime w); writable := writable w;
      clock := clock w; stdout := stdout w; figures := figures w |}).

(** [with open(path, "w") as f: f.write(text)] *)
Definition write_file (path text : string) : Py num () :=
  open_w path;; f_write path text.

(** [plt.show()] on the facet grid drawn from the event table and the mixed
    effects fits: the figure is what the plotting functions were given. *)
Definition show_figure (autocal_df : list (Event num)) (fits : DataFrame num) : Py num () := λ w,
  (Ok (),
   {| listdir := listdir w; files := files w; mtime := mtime w; writable := writable w;
      clock := clock w; stdout := stdout w; figures := figures w ++ [(autocal_df, fits)] |}).
End Statements.

(** ** [repr] of the values the script writes *)

Definition hex_digit (n : N) : Ascii.ascii :=
  Ascii.ascii_of_N (if (n <? 10)%N then 48 + n else 87 + n).

(** One character of a string inside [repr], the characters of a string
    being the code points below 256: the quote in use and the backslash are
    escaped, tab, line feed and carriage return have their letters, and the
    other code points that are not printable (the control characters, the
    no-break space and the soft hyphen) are written [\xhh]. *)
Definition repr_char (quote c : Ascii.ascii) : string :=
  let n := Ascii.N_of_ascii c in
  if Ascii.eqb c quote || Ascii.eqb c "\"%char then String "\"%char (String c EmptyString)
  else if (n =? 9)%N then "\t"
  else if (n =? 10)%N then "\n"
  else if (n =? 13)%N then "\r"
  else if (n <? 32)%N || ((127 <=? n)%N && (n <=? 160)%N) || (n =? 173)%N then
    String "\"%char (String "x"%char (String (hex_digit (n / 16)) (String (hex_digit (n mod 16)) EmptyString)))
  else String c EmptyString.

Fixpoint repr_chars (quote : Ascii.ascii) (s : string) : string :=
  match s with
  | EmptyString => EmptyString
  | String c s' => repr_char quote c +:+ repr_chars quote s'
  end.

Definition double_quote : Ascii.ascii := Ascii.ascii_of_N 34.

Fixpoint contains_char (c : Ascii.ascii) (s : string) : bool :=
  match s with
  | EmptyString => false
  | String c' s' => Ascii.eqb c' c || contains_char c s'
  end.

(** [repr(s)] for a string: single quotes, unless the string has a single
    quote and no double quote. *)
Definition repr_str (s : string) : string :=
  let quote :=
    if contains_char "'"%char s && negb (contains_char double_quote s) then double_quote
    else "'"%char in
  String quote (repr_chars quote s +:+ String quote EmptyString).

(** What [repr] writes for one item of a dictionary. *)
Definition repr_item {K V} (repr_key : K → string) (repr_value : V → string)
    (kv : K * V) : string :=
  repr_key kv.1 +:+ ": " +:+ repr_value kv.2.

(** [repr(d)] for a dictionary: the items in insertion order. *)
Definition repr_dict {K V} (repr_key : K → string) (repr_value : V → string)
    (d : list (K * V)) : string :=
  "{" +:+ String.concat ", " (repr_item repr_key repr_value <$> d) +:+ "}".

(** ** The script *)

Definition AUTOCALIBRATION_DATA_PATH : string := "autocalibration_data".
Definition AUTOCALIBRATION_RESULTS_PATH : string := "autocalibration_results".

(** [for x in l: body], the loop variables threaded as [s]; an exception ends
    the loop. *)
Fixpoint for_each {A S} (l : list A) (body : A → S → result S) (s : S) : result S :=
  match l with
  | [] => Ok s
  | x :: l' =>
      match body x s with
      | Ok s' => for_each l' body s'
      | Raise e => Raise e
      end
  end.

(** The transpose of a table of [width] columns given row by row. *)
Definition transpose {A} (width : nat) (rows : list (list A)) : list (list A) :=
  foldr (zip_with cons) (replicate width []) rows.

Section Script.
Context {num : Type} `{Arith num} (E : Externals num).

(** [pd.DataFrame(poke2fit)] for a dictionary of [{"s": _, "i": _}]
    dictionaries: one column per key, the rows ["s"] and ["i"]. *)
Definition DataFrame_of_dict (poke2fit : list (string * FitParams num)) : DataFrame num :=
  match poke2fit with
  | [] => {| df_index := []; df_columns := []; df_values := [] |}
  | _ :: _ =>
      {| df_index := ["s"; "i"];
         df_columns := poke2fit.*1;
         df_values := [fit_s <$> poke2fit.*2; fit_i <$> poke2fit.*2] |}
  end.

(** [df.T] *)
Definition T (df : DataFrame num) : DataFrame num :=
  {| df_index := df_columns df;
     df_columns := df_index df;
     df_values := transpose (length (df_columns df)) (df_values df) |}.

(** [df.to_dict()]: column label to (row label to cell). *)
Definition to_dict (df : DataFrame num) : list (string * list (string * num)) :=
  zip (df_columns df)
      (zip (df_index df) <$> transpose (length (df_columns df)) (df_values df)).

(** [df.loc[row, column]] *)
Definition loc (df : DataFrame num) (row column : string) : result num :=
  i ← get_loc row (df_index df);
  j ← get_loc column (df_columns df);
  cells ← py_getitem (df_values df) i;
  py_getitem cells j.


(** [repr] of the dictionary [to_dict] returns. *)
Definition repr_fits (d : list (string * list (string * num))) : string :=
  repr_dict repr_str (repr_dict repr_str (float_repr E)) d.

(** [pd.DataFrame(autocal_results)] followed by the first read of the
    [release_weight] column: a frame built from no dictionaries has no
    columns. *)
Definition DataFrame_of_events (autocal_results : list (RawEvent num)) : result (list (RawEvent num)) :=
  match autocal_results with
  | [] => Raise (AttributeError "release_weight")
  | _ :: _ => Ok autocal_results
  end.

(** [autocal_df.release_weight = autocal_df.release_weight.apply(abs)] *)
Definition apply_abs (autocal_df : list (RawEvent num)) : list (RawEvent num) :=
  (λ r, {| raw_poke := raw_poke r;
           raw_release_duration := raw_release_duration r;
           raw_release_weight := nabs (raw_release_weight r);
           raw_n_release := raw_n_release r |}) <$> autocal_df.

(** [autocal_df["single_release_vol"] =
     autocal_df.release_weight.div(autocal_df.n_release).mul(1000)] *)
Definition add_single_release_vol (autocal_df : list (RawEvent num)) : list (Event num) :=
  (λ r, {| poke := raw_poke r;
           release_duration := raw_release_duration r;
           release_weight := raw_release_weight r;
           n_release := raw_n_release r;
           single_release_vol :=
             nmul (ndiv (raw_release_weight r) (raw_n_release r)) (of_int 1000) |}) <$> autocal_df.

(** The timestamp a file name encodes: [pd.to_datetime(f.split("-", 1)[1].split(".")[0])]. *)
Definition file_datetime (f : string) : result Timestamp :=
  tail ← split_once_tail "-"%char f;
  to_datetime E (split_head "."%char tail).

(** The log files of a directory listing: [[f for f in autocal_files if f.endswith(".tsv")]]. *)
Definition tsv_files (names : list string) : list string :=
  filter (λ f, endswith f ".tsv") names.

(** Lines 51 and 52 of the script: the file at the position of the latest
    timestamp. *)
Definition most_recent_file (autocal_files : list string) (autocal_datetimes : list Timestamp) : result string :=
  latest ← py_max autocal_datetimes;
  idx ← py_index latest autocal_datetimes;
  py_getitem autocal_files idx.

(** Lines 54 to 61 of the script: read the chosen file into the event table. *)
Definition read_events (data_filename : string) : Py num (list (Event num)) :=
  print ("loading_file: " +:+ data_filename);;
  let autocal_path := os_path_join AUTOCALIBRATION_DATA_PATH data_filename in
  text ← read_text autocal_path;
  autocal_results ← py_lift (read_csv E text);
  autocal_results ← py_lift (list_comprehension (literal_eval E)
                               (content <$> filter (λ r, subtype r = "print") autocal_results));
  autocal_df ← py_lift (DataFrame_of_events autocal_results);
  let autocal_df := apply_abs autocal_df in
  mret (add_single_release_vol autocal_df).

Definition load_autocalibration_results (data_filename : option string) : Py num (list (Event num)) :=
  autocal_files ← os_listdir AUTOCALIBRATION_DATA_PATH;
  let autocal_files := tsv_files autocal_files in
  autocal_datetimes ← py_lift (list_comprehension file_datetime autocal_files);
  data_filename ←
    py_lift (match data_filename with
             | None => most_recent_file autocal_files autocal_datetimes
             | Some f => Ok f
             end);
  py_assert (bool_decide (data_filename ∈ autocal_files))
    ("Specified file " +:+ data_filename +:+ " not found in " +:+ AUTOCALIBRATION_DATA_PATH);;
  read_events data_filename.

(** The events of one poke: [autocal_df[autocal_df.poke == poke]]. *)
Definition poke_rows (p : string) (autocal_df : list (Event num)) : list (Event num) :=
  filter (λ e, poke e = p) autocal_df.

Definition get_linear_regression_parameters (autocal_df : list (Event num)) : result (DataFrame num) :=
  poke2fit ← for_each (unique (poke <$> autocal_df))
    (λ p poke2fit,
       let poke_df := poke_rows p autocal_df in
       fit ← polyfit E (single_release_vol <$> poke_df) (release_duration <$> poke_df);
       let '(slope, intercept) := fit in
       mret (dict_set p {| fit_s := nround slope 2; fit_i := nround intercept 2 |} poke2fit))
    [];
  mret (T (DataFrame_of_dict poke2fit)).

Definition get_mixed_effects_regression_parameters (autocal_df : list (Event num)) : result (DataFrame num) :=
  mdf ← mixedlm_fit E autocal_df;
  poke2fit ← for_each (unique (poke <$> autocal_df))
    (λ p poke2fit,
       re ← dict_get p (random_effects mdf);
       let slope := nadd (fe_single_release_vol mdf) (re_single_release_vol re) in
       let intercept := nadd (fe_Intercept mdf) (re_Group re) in
       mret (dict_set p {| fit_s := nround slope 2; fit_i := nround intercept 2 |} poke2fit))
    [];
  mret (T (DataFrame_of_dict poke2fit)).

(** The body of the loop of [get_linear_regression_parameters] as a function
    of the poke: the rounded line through the poke's own events. *)
Definition poke_linear_fit (autocal_df : list (Event num)) (p : string) : result (FitParams num) :=
  let poke_df := poke_rows p autocal_df in
  match polyfit E (single_release_vol <$> poke_df) (release_duration <$> poke_df) with
  | Ok (slope, intercept) => Ok {| fit_s := nround slope 2; fit_i := nround intercept 2 |}
  | Raise e => Raise e
  end.

(** The body of the loop of [get_mixed_effects_regression_parameters]: the
    fixed effects plus the random effects of the poke, rounded. *)
Definition poke_mixed_fit (mdf : MixedLMResults num) (p : string) : result (FitParams num) :=
  match dict_get p (random_effects mdf) with
  | Ok re =>
      Ok {| fit_s := nround (nadd (fe_single_release_vol mdf) (re_single_release_vol re)) 2;
            fit_i := nround (nadd (fe_Intercept mdf) (re_Group re)) 2 |}
  | Raise e => Raise e
  end.

(** The plotting function draws with seaborn and matplotlib and returns
    nothing; what it shows is recorded in the world. *)
Definition plot_poke_calibration_fits (autocal_df : list (Event num)) (poke2fit_me_params : DataFrame num) : Py num () :=
  show_figure autocal_df poke2fit_me_params.

Definition get_poke_calibration_parameters (data_filename : option string)
    (plot save_mixed_effects : bool) (save_filename : string) : Py num (DataFrame num * DataFrame num) :=
  autocal_df ← load_autocalibration_results data_filename;
  poke2fit_lr_params ← py_lift (get_linear_regression_parameters autocal_df);
  poke2fit_me_params ← py_lift (get_mixed_effects_regression_parameters autocal_df);
  (if plot then plot_poke_calibration_fits autocal_df poke2fit_me_params else mret ());;
  let save_path := os_path_join AUTOCALIBRATION_RESULTS_PATH save_filename in
  open_w save_path;;
  (if save_mixed_effects then f_write save_path (repr_fits (to_dict (T poke2fit_me_params)))
   else f_write save_path (repr_fits (to_dict (T poke2fit_lr_params))));;
  mret (poke2fit_lr_params, poke2fit_me_params).

(** The text the entry point writes for a pair of fit collections. *)
Definition saved_text (save_mixed_effects : bool) (lr me : DataFrame num) : string :=
  if save_mixed_effects then repr_fits (to_dict (T me)) else repr_fits (to_dict (T lr)).

(** The call of the [__main__] block: every argument at its default. *)
Definition main : Py num (DataFrame num * DataFrame num) :=
  get_poke_calibration_parameters None true true "calibration_results.txt".
End Script.

(** ** Vocabulary of the properties *)

(** The log with the sign of every measured weight flipped. *)
Definition negate_weight {num} `{Arith num} (r : RawEvent num) : RawEvent num :=
  {| raw_poke := raw_poke r;
     raw_release_duration := raw_release_duration r;
     raw_release_weight := nopp (raw_release_weight r);
     raw_n_release := raw_n_release r |}.

Definition with_negated_weights {num} `{Arith num} (E : Externals num) : Externals num :=
  {| to_datetime := to_datetime E;
     read_csv := read_csv E;
     literal_eval := λ s, match literal_eval E s with
                          | Ok r => Ok (negate_weight r)
                          | Raise e => Raise e
                          end;
     polyfit := polyfit E;
     mixedlm_fit := mixedlm_fit E;
     float_repr := float_repr E |}.

(** The text the specification asks for in the results file: a literal
    mapping [{poke: {"s": slope, "i": intercept}, ...}], written the way
    Python displays a dictionary, the poke as the string literal [key_text]
    gives and the two numbers as [repr] prints a float. *)
Definition mapping_item {num} (key_text : string → string) (E : Externals num)
    (item : string * (num * num)) : string :=
  key_text item.1 +:+ ": {'s': " +:+ float_repr E item.2.1
    +:+ ", 'i': " +:+ float_repr E item.2.2 +:+ "}".

Definition literal_mapping {num} (key_text : string → string) (E : Externals num)
    (items : list (string * (num * num))) : string :=
  "{" +:+ String.concat ", " (mapping_item key_text E <$> items) +:+ "}".

(** A name between single quotes, and the names that are written so: those
    made of printable ASCII characters other than the single quote and the
    backslash. *)
Definition quoted (s : string) : string := "'" +:+ s +:+ "'".



(** [w'] is [w] with more lines printed: files, times, listings and figures
    are the same. *)
Definition only_printed {num} (w w' : World num) : Prop :=
  listdir w' = listdir w ∧ files w' = files w ∧ mtime w' = mtime w ∧
  writable w' = writable w ∧ clock w' = clock w ∧ figures w' = figures w.

(** ** Arithmetic instances *)

(** *** Exact rationals *)

(** [rint]: the nearest integer, ties to the even one. *)
Definition Qrint (q : Q) : Z :=
  let f := Qfloor q in
  match (q - inject_Z f ?= 1 # 2)%Q with
  | Lt => f
  | Gt => (f + 1)%Z
  | Eq => if Z.even f then f else (f + 1)%Z
  end.

(** [round(q, d)] the way numpy rounds: scale by [10^d], [rint], scale back. *)
Definition Qround_digits (q : Q) (d : Z) : Q :=
  if (0 <=? d)%Z then Qred (inject_Z (Qrint (q * inject_Z (10 ^ d))) / inject_Z (10 ^ d))
  else Qred (inject_Z (Qrint (q / inject_Z (10 ^ (- d)))) * inject_Z (10 ^ (- d))).

#[global] Instance Q_arith : Arith Q := {|
  nabs := Qabs;
  nopp := Qopp;
  nadd := Qplus;
  nmul := Qmult;
  ndiv := Qdiv;
  nround := Qround_digits;
  of_int := inject_Z;
|}.

(** *** IEEE binary64 *)

Definition float_of_Z (z : Z) : float :=
  if (z <? 0)%Z then PrimFloat.opp (PrimFloat.of_uint63 (Uint63.of_Z (- z)))
  else PrimFloat.of_uint63 (Uint63.of_Z z).

Definition two_52 : float := float_of_Z (2 ^ 52).

(** [rint] in round-to-nearest-even arithmetic: below [2^52] adding and
    removing [2^52] leaves the nearest integer, which takes the sign of the
    argument (so [-0.3] and [-0.0] give [-0.0]); from [2^52] on every float is
    an integer. *)
Definition float_rint (x : float) : float :=
  if PrimFloat.ltb (PrimFloat.abs x) two_52 then
    let r := PrimFloat.sub (PrimFloat.add (PrimFloat.abs x) two_52) two_52 in
    if PrimFloat.get_sign x then PrimFloat.opp r else r
  else x.

Definition float_round_digits (x : float) (d : Z) : float :=
  if (0 <=? d)%Z then
    PrimFloat.div (float_rint (PrimFloat.mul x (float_of_Z (10 ^ d)))) (float_of_Z (10 ^ d))
  else
    PrimFloat.mul (float_rint (PrimFloat.div x (float_of_Z (10 ^ (- d))))) (float_of_Z (10 ^ (- d))).

#[global] Instance float_arith : Arith float := {|
  nabs := PrimFloat.abs;
  nopp := PrimFloat.opp;
  nadd := PrimFloat.add;
  nmul := PrimFloat.mul;
  ndiv := PrimFloat.div;
  nround := float_round_digits;
  of_int := float_of_Z;
|}.

(** ** Decimal text of exact rationals

    The text Python's [repr] prints for a float whose shortest decimal is the
    decimal expansion of the rational: the digits with a point (and [.0]
    after a whole number) for magnitudes from [1e-04] up to, not including,
    [1e+16], and one digit, a point, the other digits and an exponent of at
    least two digits outside.  Rationals have no infinity, no not-a-number and
    one zero only; an expansion that does not end is cut. *)

Definition digit_char (d : Z) : Ascii.ascii := Ascii.ascii_of_N (48 + Z.to_N d).

Definition digit_value (c : Ascii.ascii) : option Z :=
  let n := Ascii.N_of_ascii c in
  if (48 <=? n)%N && (n <=? 57)%N then Some (Z.of_N (n - 48)) else None.

Definition natural_text (n : Z) : string :=
  DecimalString.NilEmpty.string_of_uint (N.to_uint (Z.to_N n)).

Fixpoint frac_digits (fuel : nat) (r : Q) : string :=
  match fuel with
  | O => EmptyString
  | S fuel' =>
      let d := Qfloor (r * 10) in
      let r' := (r * 10 - inject_Z d)%Q in
      String (digit_char d) (if Qeq_bool r' 0 then EmptyString else frac_digits fuel' r')
  end.

(** For [0 < a < 1]: the exponent of the first digit of [a] that is not
    zero. *)
Fixpoint exponent_below_one (fuel : nat) (a : Q) (e : Z) : Z :=
  match fuel with
  | O => e
  | S fuel' => if Qle_bool 1 a then e else exponent_below_one fuel' (a * 10) (e - 1)
  end.

(** For [0 < a]: the [e] with [10^e ≤ a < 10^(e+1)]. *)
Definition decimal_exponent (a : Q) : Z :=
  if Qle_bool 1 a then Z.of_nat (String.length (natural_text (Qfloor a))) - 1
  else exponent_below_one (S (String.length (natural_text (Zpos (Qden a))))) a 0.

Definition exponent_text (e : Z) : string :=
  (if (e <? 0)%Z then "e-" else "e+")
    +:+ (if (Z.abs e <? 10)%Z then "0" else "") +:+ natural_text (Z.abs e).

Definition Q_repr (q : Q) : string :=
  let a := Qabs q in
  let sign := if Qlt_le_dec q 0 then "-" else "" in
  if Qeq_bool a 0 then "0.0"
  else
    let e := decimal_exponent a in
    if (e <=? -5)%Z || (16 <=? e)%Z then
      let m := if (0 <=? e)%Z then (a / inject_Z (10 ^ e))%Q else (a * inject_Z (10 ^ (- e)))%Q in
      let first := Qfloor m in
      let r := (m - inject_Z first)%Q in
      sign +:+ natural_text first
        +:+ (if Qeq_bool r 0 then "" else "." +:+ frac_digits 16 r)
        +:+ exponent_text e
    else
      let whole := Qfloor a in
      sign +:+ natural_text whole +:+ "." +:+ frac_digits 20 (a - inject_Z whole).

(** ** The least squares line in exact arithmetic *)

Definition Qsum (l : list Q) : Q := foldr Qplus 0%Q l.

(** The closed form of the least squares line. *)
Definition normal_equations_line (xs ys : list Q) : Q * Q :=
  let n := inject_Z (Z.of_nat (length xs)) in
  let sx := Qsum xs in
  let sy := Qsum ys in
  let sxx := Qsum (zip_with Qmult xs xs) in
  let sxy := Qsum (zip_with Qmult xs ys) in
  let slope := ((n * sxy - sx * sy) / (n * sxx - sx * sx))%Q in
  (Qred slope, Qred ((sy - slope * sx) / n)).

(** ** The line the plotting helper draws

    [Series.min] and [Series.max] need an order on the numbers. *)

Class ArithOrder (num : Type) : Type := {
  nmin : num → num → num;
  nmax : num → num → num;
}.

#[global] Instance Q_order : ArithOrder Q := {|
  nmin := Qmin;
  nmax := Qmax;
|}.

Section Plot.
Context {num : Type} `{Arith num} `{ArithOrder num}.

(** [plot_mixed_effects_fit(data, x, color, poke2fit_me_params)]: the value
    is the segment handed to [plt.plot], as its two end points.
    [data.poke.unique()[0]] raises on a facet without events before a minimum
    is taken; on a facet with events it is the poke of the first one. *)
Definition plot_mixed_effects_fit (data : list (Event num)) (poke2fit_me_params : DataFrame num) :
    result ((num * num) * (num * num)) :=
  match data with
  | [] => Raise (IndexError "index 0 is out of bounds for axis 0 with size 0")
  | first :: others =>
      let poke := poke first in
      let xmin := foldl nmin (single_release_vol first) (single_release_vol <$> others) in
      let xmax := foldl nmax (single_release_vol first) (single_release_vol <$> others) in
      intercept ← loc poke2fit_me_params poke "i";
      slope ← loc poke2fit_me_params poke "s";
      let ymin := nadd intercept (nmul slope xmin) in
      let ymax := nadd intercept (nmul slope xmax) in
      mret ((xmin, ymin), (xmax, ymax))
  end.
End Plot.

(** ** An example installation

    A data directory with the three logs of the specification's example
    (dated 2023-01-01, 2023-06-15 and 2022-12-31), stand-ins for the library
    functions that are enough to run the script on it in exact arithmetic,
    and a second directory holding a file whose name has no timestamp. *)

Module Demo.

(** Reads a [YYYY-MM-DD-HHMMSS] stamp as the number its digits spell; the
    stamps are tz-naive, and the empty stamp is not a time. *)
Fixpoint stamp_value (s : string) (acc : Z) : option Z :=
  match s with
  | EmptyString => Some acc
  | String c s' =>
      match digit_value c with
      | Some d => stamp_value s' (10 * acc + d)%Z
      | None => if Ascii.eqb c "-" then stamp_value s' acc else None
      end
  end.

Definition parse_stamp (s : string) : result Timestamp :=
  match s, stamp_value s 0 with
  | EmptyString, _ => Ok NaT
  | String _ _, Some t => Ok (Instant false t)
  | String _ _, None =>
      Raise (ValueError ("Unknown datetime string format, unable to parse: " +:+ s))
  end.

Definition june_rows : list tsv_row :=
  [ {| subtype := "run_start"; content := "" |};
    {| subtype := "print";
       content := "{'poke': 'A1', 'release_duration': 100, 'release_weight': -0.45, 'n_release': 10}" |};
    {| subtype := "print";
       content := "{'poke': 'B2', 'release_duration': 65, 'release_weight': 0.2, 'n_release': 10}" |};
    {| subtype := "task";
       content := "reward" |};
    {| subtype := "print";
       content := "{'poke': 'A1', 'release_duration': 190, 'release_weight': 0.9, 'n_release': 10}" |};
    {| subtype := "print";
       content := "{'poke': 'B2', 'release_duration': 185, 'release_weight': -0.6, 'n_release': 10}" |} ].

Definition read_log (text : string) : result (list tsv_row) :=
  if String.eqb text "june log" then Ok june_rows
  else if String.eqb text "january log" then Ok []
  else Raise (ValueError "Error tokenizing data").

Definition event (p : string) (duration weight n : Q) : RawEvent Q :=
  {| raw_poke := p; raw_release_duration := duration;
     raw_release_weight := weight; raw_n_release := n |}.

Definition eval_line (s : string) : result (RawEvent Q) :=
  if String.eqb s "{'poke': 'A1', 'release_duration': 100, 'release_weight': -0.45, 'n_release': 10}"
  then Ok (event "A1" 100 (-45 # 100) 10)
  else if String.eqb s "{'poke': 'B2', 'release_duration': 65, 'release_weight': 0.2, 'n_release': 10}"
  then Ok (event "B2" 65 (2 # 10) 10)
  else if String.eqb s "{'poke': 'A1', 'release_duration': 190, 'release_weight': 0.9, 'n_release': 10}"
  then Ok (event "A1" 190 (9 # 10) 10)
  else if String.eqb s "{'poke': 'B2', 'release_duration': 185, 'release_weight': -0.6, 'n_release': 10}"
  then Ok (event "B2" 185 (-6 # 10) 10)
  else Raise (ValueError ("malformed node or string: " +:+ s)).

Definition exact_polyfit (xs ys : list Q) : result (Q * Q) :=
  match xs with
  | [] => Raise (TypeError "expected non-empty vector for x")
  | _ :: _ =>
      if bool_decide (length xs = length ys) then Ok (normal_equations_line xs ys)
      else Raise (TypeError "expected x and y to have same length")
  end.

(** A stand-in for the mixed effects fit, with a fixed shrinkage: the fixed
    effects are the line through all events, the random effects of a poke
    four fifths of what its own line adds to it, so that every poke is drawn
    toward the pooled line.  It is not the estimate of statsmodels. *)
Definition shrunk_mixedlm (autocal_df : list (Event Q)) : result (MixedLMResults Q) :=
  match autocal_df with
  | [] => Raise (ValueError "zero-size array")
  | _ :: _ =>
      let line rows := normal_equations_line (single_release_vol <$> rows) (release_duration <$> rows) in
      let fe := line autocal_df in
      Ok {| fe_Intercept := fe.2;
            fe_single_release_vol := fe.1;
            random_effects :=
              (λ p, let own := line (filter (λ e, poke e = p) autocal_df) in
                    (p, {| re_Group := Qred ((own.2 - fe.2) * (4 # 5));
                           re_single_release_vol := Qred ((own.1 - fe.1) * (4 # 5)) |}))
                <$> unique (poke <$> autocal_df) |}
  end.

Definition externals : Externals Q :=
  {| to_datetime := parse_stamp;
     read_csv := read_log;
     literal_eval := eval_line;
     polyfit := exact_polyfit;
     mixedlm_fit := shrunk_mixedlm;
     float_repr := Q_repr |}.

(** The dictionaries of the [print] lines of the June log, the table the
    loader makes of them, and the independent fits of that table. *)
Definition raws : list (RawEvent Q) :=
  [event "A1" 100 (-45 # 100) 10; event "B2" 65 (2 # 10) 10;
   event "A1" 190 (9 # 10) 10; event "B2" 185 (-6 # 10) 10].

Definition table : list (Event Q) := add_single_release_vol (apply_abs raws).

Definition fits : DataFrame Q :=
  {| df_index := ["A1"; "B2"]; df_columns := ["s"; "i"];
     df_values := [[2; 10]; [3; 5]]%Q |}.

(** The mixed effects fits of that table with the stand-in above. *)
Definition fits_me : DataFrame Q :=
  {| df_index := ["A1"; "B2"]; df_columns := ["s"; "i"];
     df_values := [[199 # 100; 709 # 50]; [279 # 100; 509 # 50]]%Q |}.

(** The same library functions, with a mixed effects optimisation that fails. *)
Definition externals_singular : Externals Q :=
  {| to_datetime := parse_stamp;
     read_csv := read_log;
     literal_eval := eval_line;
     polyfit := exact_polyfit;
     mixedlm_fit := λ _, Raise (LibraryError "LinAlgError: Singular matrix");
     float_repr := Q_repr |}.

Definition january : string := "rig1-2023-01-01-090000.tsv".
Definition june : string := "rig1-2023-06-15-120000.tsv".
Definition december : string := "rig1-2022-12-31-235959.tsv".

Definition world : World Q :=
  {| listdir := {[ AUTOCALIBRATION_DATA_PATH := [january; "notes.txt"; june; december];
                   AUTOCALIBRATION_RESULTS_PATH := ["readme.txt"] ]};
     files := {[ "autocalibration_data/rig1-2023-01-01-090000.tsv" := "january log";
                 "autocalibration_data/rig1-2023-06-15-120000.tsv" := "june log";
                 "autocalibration_data/rig1-2022-12-31-235959.tsv" := "december log" ]};
     mtime := {[ "autocalibration_data/rig1-2023-01-01-090000.tsv" := 300%Z;
                 "autocalibration_data/rig1-2023-06-15-120000.tsv" := 100%Z;
                 "autocalibration_data/rig1-2022-12-31-235959.tsv" := 200%Z ]};
     writable := λ path, String.prefix "autocalibration_results/" path;
     clock := 1000;
     stdout := [];
     figures := [] |}.

(** The same directory listed in another order, with other modification
    times. *)
Definition world_reordered : World Q :=
  {| listdir := {[ AUTOCALIBRATION_DATA_PATH := [december; june; "notes.txt"; january] ]};
     files := files world;
     mtime := {[ "autocalibration_data/rig1-2023-01-01-090000.tsv" := 10%Z;
                 "autocalibration_data/rig1-2023-06-15-120000.tsv" := 30%Z;
                 "autocalibration_data/rig1-2022-12-31-235959.tsv" := 20%Z ]};
     writable := writable world;
     clock := 2000;
     stdout := [];
     figures := [] |}.

(** A directory in which one log has no timestamp in its name. *)
Definition world_unstamped : World Q :=
  {| listdir := {[ AUTOCALIBRATION_DATA_PATH := [june; "calibration.tsv"] ]};
     files := files world;
     mtime := mtime world;
     writable := writable world;
     clock := 1000;
     stdout := [];
     figures := [] |}.


End Demo.

(** ** Further installations

    Variations of the example for the edge cases of the script: a log with a
    line that is no dictionary, a mixed effects result that lacks a poke, a
    results directory that cannot be written to, and two logs of the same
    date. *)

Module Cases.

Definition broken_rows : list tsv_row :=
  [ {| subtype := "print";
       content := "{'poke': 'A1', 'release_duration': 100, 'release_weight': -0.45, 'n_release': 10}" |};
    {| subtype := "print"; content := "calibration started" |};
    {| subtype := "print"; content := "{'poke': " |} ].

(** A reader of logs for which the June log holds [broken_rows], and one that
    also knows a log with the rows of the example and a malformed line that
    is not a [print] line. *)
Definition read_broken_log (text : string) : result (list tsv_row) :=
  if String.eqb text "june log" then Ok broken_rows else Demo.read_log text.

Definition read_noisy_log (text : string) : result (list tsv_row) :=
  if String.eqb text "noisy june log"
  then Ok ({| subtype := "warning"; content := "{'poke': " |} :: Demo.june_rows)
  else Demo.read_log text.

Definition externals_broken : Externals Q :=
  {| to_datetime := Demo.parse_stamp;
     read_csv := read_broken_log;
     literal_eval := Demo.eval_line;
     polyfit := Demo.exact_polyfit;
     mixedlm_fit := Demo.shrunk_mixedlm;
     float_repr := Q_repr |}.

Definition externals_noisy : Externals Q :=
  {| to_datetime := Demo.parse_stamp;
     read_csv := read_noisy_log;
     literal_eval := Demo.eval_line;
     polyfit := Demo.exact_polyfit;
     mixedlm_fit := Demo.shrunk_mixedlm;
     float_repr := Q_repr |}.

(** A mixed effects result with random effects for poke A1 only. *)
Definition externals_partial : Externals Q :=
  {| to_datetime := Demo.parse_stamp;
     read_csv := Demo.read_log;
     literal_eval := Demo.eval_line;
     polyfit := Demo.exact_polyfit;
     mixedlm_fit := λ _,
       Ok {| fe_Intercept := 7%Q; fe_single_release_vol := 2%Q;
             random_effects := [("A1", {| re_Group := 3%Q; re_single_release_vol := 0%Q |})] |};
     float_repr := Q_repr |}.

(** The example installation with a results directory that cannot be
    written to. *)
Definition world_readonly : World Q :=
  {| listdir := listdir Demo.world;
     files := files Demo.world;
     mtime := mtime Demo.world;
     writable := λ _, false;
     clock := 1000;
     stdout := [];
     figures := [] |}.

(** The example installation with the noisy log in the place of the June
    log. *)
Definition world_noisy : World Q :=
  {| listdir := listdir Demo.world;
     files := <[ "autocalibration_data/rig1-2023-06-15-120000.tsv" := "noisy june log" ]>
                (files Demo.world);
     mtime := mtime Demo.world;
     writable := writable Demo.world;
     clock := 1000;
     stdout := [];
     figures := [] |}.


(** A table in which the pokes B2 and C3 have a single event each. *)
Definition sparse_table : list (Event Q) :=
  add_single_release_vol (apply_abs
    [Demo.event "A1" 100 (-45 # 100) 10; Demo.event "B2" 65 (2 # 10) 10;
     Demo.event "A1" 190 (9 # 10) 10; Demo.event "C3" 70 (3 # 10) 10]).

(** The events of one facet of the figure, with whole volumes. *)
Definition facet : list (Event Q) :=
  [ {| poke := "A1"; release_duration := 100%Q; release_weight := (45 # 100)%Q;
       n_release := 10%Q; single_release_vol := 45%Q |};
    {| poke := "A1"; release_duration := 190%Q; release_weight := (9 # 10)%Q;
       n_release := 10%Q; single_release_vol := 90%Q |};
    {| poke := "A1"; release_duration := 150%Q; release_weight := (7 # 10)%Q;
       n_release := 10%Q; single_release_vol := 70%Q |} ].

(** A directory with a log whose name has an empty stamp, which
    [pd.to_datetime] reads as [NaT]. *)
Definition world_nat : World Q :=
  {| listdir := {[ AUTOCALIBRATION_DATA_PATH := ["a-.tsv"; Demo.june] ]};
     files := files Demo.world;
     mtime := mtime Demo.world;
     writable := writable Demo.world;
     clock := 1000;
     stdout := [];
     figures := [] |}.

(** Two rigs calibrated at the same time. *)
Definition rig1 : string := "rig1-2023-06-15-120000.tsv".
Definition rig2 : string := "rig2-2023-06-15-120000.tsv".

Definition world_tie : World Q :=
  {| listdir := {[ AUTOCALIBRATION_DATA_PATH := [Demo.january; rig2; rig1] ]};
     files := {[ "autocalibration_data/rig1-2023-06-15-120000.tsv" := "june log";
                 "autocalibration_data/rig2-2023-06-15-120000.tsv" := "january log" ]};
     mtime := ∅;
     writable := writable Demo.world;
     clock := 1000;
     stdout := [];
     figures := [] |}.

(** The same directory, the two rigs listed in the other order. *)
Definition world_tie_reordered : World Q :=
  {| listdir := {[ AUTOCALIBRATION_DATA_PATH := [Demo.january; rig1; rig2] ]};
     files := files world_tie;
     mtime := ∅;
     writable := writable Demo.world;
     clock := 1000;
     stdout := [];
     figures := [] |}.

End Cases.

(** ** An installation in binary64

    The arithmetic of the script itself: the log of the example with
    measurement noise, evaluated to floats, with stand-ins for the two fits
    that compute in binary64, and [repr] of a float. *)

Module Binary64.

(** The rational a finite float stands for. *)
Definition Q_of_float (x : float) : Q :=
  match Prim2SF x with
  | S754_finite s m e =>
      let v := if (0 <=? e)%Z then inject_Z (Zpos m * 2 ^ e)
               else (inject_Z (Zpos m) / inject_Z (2 ^ (- e)))%Q in
      if s then Qopp v else v
  | _ => 0%Q
  end.

Definition mantissa_even (x : float) : bool :=
  match Prim2SF x with
  | S754_finite _ m _ => Z.even (Zpos m)
  | _ => true
  end.

(** Whether the decimal [d] reads as the positive float [x]: it lies between
    the midpoints from [x] to its two neighbours, and a midpoint reads as the
    float of even mantissa. *)
Definition reads_as (x : float) (d : Q) : bool :=
  let v := Q_of_float x in
  let below := Q_of_float (PrimFloat.next_down x) in
  let above :=
    if PrimFloat.is_infinity (PrimFloat.next_up x) then inject_Z (2 ^ 1024)
    else Q_of_float (PrimFloat.next_up x) in
  let low := ((below + v) / 2)%Q in
  let high := ((v + above) / 2)%Q in
  if mantissa_even x then Qle_bool low d && Qle_bool d high
  else negb (Qle_bool d low) && negb (Qle_bool high d).

(** The decimal of [n] digits nearest to the positive float [x], among those
    that read as [x]. *)
Definition decimal_of_digits (x : float) (n : nat) : option Q :=
  let v := Q_of_float x in
  let shift := (decimal_exponent v - Z.of_nat n + 1)%Z in
  let unit := if (0 <=? shift)%Z then inject_Z (10 ^ shift) else (1 / inject_Z (10 ^ (- shift)))%Q in
  let k := Qfloor (v / unit) in
  let down := (inject_Z k * unit)%Q in
  let up := (inject_Z (k + 1) * unit)%Q in
  match reads_as x down, reads_as x up with
  | true, true => Some (if Qle_bool (v - down) (up - v) then down else up)
  | true, false => Some down
  | false, true => Some up
  | false, false => None
  end.

(** The shortest decimal that reads as [x]; 17 digits are always enough. *)
Fixpoint shortest_decimal_from (x : float) (n fuel : nat) : Q :=
  match fuel with
  | O => Q_of_float x
  | S fuel' =>
      match decimal_of_digits x n with
      | Some d => d
      | None => shortest_decimal_from x (S n) fuel'
      end
  end.

(** [repr(x)] for a float. *)
Definition repr64 (x : float) : string :=
  if PrimFloat.is_nan x then "nan"
  else if PrimFloat.is_infinity x then (if PrimFloat.get_sign x then "-inf" else "inf")
  else if PrimFloat.is_zero x then (if PrimFloat.get_sign x then "-0.0" else "0.0")
  else (if PrimFloat.get_sign x then "-" else "")
         +:+ Q_repr (Qred (shortest_decimal_from (PrimFloat.abs x) 1 17)).

(** The rows of the log: three weighings per poke, with noise. *)
Definition rows : list tsv_row :=
  [ {| subtype := "run_start"; content := "" |};
    {| subtype := "print";
       content := "{'poke': 'A1', 'release_duration': 100, 'release_weight': -0.45, 'n_release': 10}" |};
    {| subtype := "print";
       content := "{'poke': 'B2', 'release_duration': 65, 'release_weight': 0.2, 'n_release': 10}" |};
    {| subtype := "print";
       content := "{'poke': 'A1', 'release_duration': 190, 'release_weight': 0.9, 'n_release': 10}" |};
    {| subtype := "print";
       content := "{'poke': 'B2', 'release_duration': 185, 'release_weight': -0.6, 'n_release': 10}" |};
    {| subtype := "print";
       content := "{'poke': 'A1', 'release_duration': 150, 'release_weight': 0.71, 'n_release': 10}" |};
    {| subtype := "print";
       content := "{'poke': 'B2', 'release_duration': 120, 'release_weight': 0.41, 'n_release': 10}" |} ].

Definition read_log (text : string) : result (list tsv_row) :=
  if String.eqb text "june log" then Ok rows else Demo.read_log text.

Definition event (p : string) (duration weight n : float) : RawEvent float :=
  {| raw_poke := p; raw_release_duration := duration;
     raw_release_weight := weight; raw_n_release := n |}.

#[warnings="-inexact-float"]
Definition eval_line (s : string) : result (RawEvent float) :=
  if String.eqb s "{'poke': 'A1', 'release_duration': 100, 'release_weight': -0.45, 'n_release': 10}"
  then Ok (event "A1" 100 (-0.45) 10)
  else if String.eqb s "{'poke': 'B2', 'release_duration': 65, 'release_weight': 0.2, 'n_release': 10}"
  then Ok (event "B2" 65 0.2 10)
  else if String.eqb s "{'poke': 'A1', 'release_duration': 190, 'release_weight': 0.9, 'n_release': 10}"
  then Ok (event "A1" 190 0.9 10)
  else if String.eqb s "{'poke': 'B2', 'release_duration': 185, 'release_weight': -0.6, 'n_release': 10}"
  then Ok (event "B2" 185 (-0.6) 10)
  else if String.eqb s "{'poke': 'A1', 'release_duration': 150, 'release_weight': 0.71, 'n_release': 10}"
  then Ok (event "A1" 150 0.71 10)
  else if String.eqb s "{'poke': 'B2', 'release_duration': 120, 'release_weight': 0.41, 'n_release': 10}"
  then Ok (event "B2" 120 0.41 10)
  else Raise (ValueError ("malformed node or string: " +:+ s)).

Definition sum64 (l : list float) : float := foldl PrimFloat.add 0%float l.

(** The closed form of the least squares line, evaluated in binary64. *)
Definition line64 (xs ys : list float) : float * float :=
  let n := float_of_Z (Z.of_nat (length xs)) in
  let sx := sum64 xs in
  let sy := sum64 ys in
  let sxx := sum64 (zip_with PrimFloat.mul xs xs) in
  let sxy := sum64 (zip_with PrimFloat.mul xs ys) in
  let slope := ((n * sxy - sx * sy) / (n * sxx - sx * sx))%float in
  (slope, ((sy - slope * sx) / n)%float).

(** A stand-in for [np.polyfit(x, y, deg=1)]: it raises on a value that is
    not finite, as the least squares routine of numpy does, and returns the
    closed form otherwise.  numpy solves the same problem by a singular value
    decomposition, so its last digits can differ, and where all volumes are
    equal it warns and returns the line of least norm, the closed form a
    not-a-number. *)
Definition polyfit64 (xs ys : list float) : result (float * float) :=
  match xs with
  | [] => Raise (TypeError "expected non-empty vector for x")
  | _ :: _ =>
      if negb (bool_decide (length xs = length ys))
      then Raise (TypeError "expected x and y to have same length")
      else if negb (forallb PrimFloat.is_finite (xs ++ ys))
      then Raise (LibraryError "LinAlgError: SVD did not converge in Linear Least Squares")
      else Ok (line64 xs ys)
  end.

(** A stand-in for the mixed effects fit with a fixed shrinkage, as
    [Demo.shrunk_mixedlm], in binary64. *)
#[warnings="-inexact-float"]
Definition mixedlm64 (autocal_df : list (Event float)) : result (MixedLMResults float) :=
  match autocal_df with
  | [] => Raise (ValueError "zero-size array")
  | _ :: _ =>
      let line rows := line64 (single_release_vol <$> rows) (release_duration <$> rows) in
      let fe := line autocal_df in
      Ok {| fe_Intercept := fe.2;
            fe_single_release_vol := fe.1;
            random_effects :=
              (λ p, let own := line (filter (λ e, poke e = p) autocal_df) in
                    (p, {| re_Group := ((own.2 - fe.2) * 0.8)%float;
                           re_single_release_vol := ((own.1 - fe.1) * 0.8)%float |}))
                <$> unique (poke <$> autocal_df) |}
  end.

Definition externals : Externals float :=
  {| to_datetime := Demo.parse_stamp;
     read_csv := read_log;
     literal_eval := eval_line;
     polyfit := polyfit64;
     mixedlm_fit := mixedlm64;
     float_repr := repr64 |}.

Definition world : World float :=
  {| listdir := listdir Demo.world;
     files := files Demo.world;
     mtime := mtime Demo.world;
     writable := writable Demo.world;
     clock := 1000;
     stdout := [];
     figures := [] |}.

(** The dictionaries of the [print] lines and the table the loader makes of
    them. *)
#[warnings="-inexact-float"]
Definition raws : list (RawEvent float) :=
  [event "A1" 100 (-0.45) 10; event "B2" 65 0.2 10; event "A1" 190 0.9 10;
   event "B2" 185 (-0.6) 10; event "A1" 150 0.71 10; event "B2" 120 0.41 10].

Definition table : list (Event float) := add_single_release_vol (apply_abs raws).

(** A table in which poke B2 released nothing at its first weighing: the
    volume there is a weight divided by zero, an infinity. *)
#[warnings="-inexact-float"]
Definition stalled_table : list (Event float) :=
  add_single_release_vol (apply_abs
    [event "A1" 100 (-0.45) 10; event "B2" 65 0.2 0; event "A1" 190 0.9 10;
     event "B2" 185 (-0.6) 10]).

(** The independent fits and the mixed effects fits of that table. *)
#[warnings="-inexact-float"]
Definition fits_lr : DataFrame float :=
  {| df_index := ["A1"; "B2"]; df_columns := ["s"; "i"];
     df_values := [[2; 9.65]; [2.99; 2.6]]%float |}.

#[warnings="-inexact-float"]
Definition fits_me : DataFrame float :=
  {| df_index := ["A1"; "B2"]; df_columns := ["s"; "i"];
     df_values := [[1.95; 15.17]; [2.75; 9.54]]%float |}.

End Binary64.

(** * Properties *)

(** ** Comprehensions, loops and list built-ins *)

Ltac py_unfold :=
  unfold mbind, mret, py_mbind, py_mret, py_bind, py_ret, py_lift, py_raise,
    result_mbind, result_ret, result_bind in *.

Lemma list_comprehension_Ok {A B} (f : A → result B) l ys :
  list_comprehension f l = Ok ys ↔ Forall2 (λ x y, f x = Ok y) l ys.
Proof.
  revert ys. induction l as [|x l IH]; intros ys; simpl.
  - split; [intros [= <-]; constructor | by inversion 1].
  - destruct (f x) as [y|e] eqn:Hx.
    + destruct (list_comprehension f l) as [ys'|e'] eqn:Hl.
      * split.
        -- intros [= <-]. constructor; [done | by apply IH].
        -- inversion 1 as [|? ? ? ? Hy Hrest]; subst.
           apply IH in Hrest. congruence.
      * split; [done |]. inversion 1 as [|? ? ? ? Hy Hrest]; subst.
        apply IH in Hrest. congruence.
    + split; [done |]. inversion 1; congruence.
Qed.

Lemma list_comprehension_total {A B} (f : A → result B) l :
  Forall (λ x, ∃ y, f x = Ok y) l → ∃ ys, list_comprehension f l = Ok ys.
Proof.
  induction 1 as [|x l [y Hy] _ [ys Hys]]; simpl; [by eexists |].
  rewrite Hy, Hys. by eexists.
Qed.

(** A comprehension raises the exception of the first element on which the
    function raises: the function returned on every element before it. *)
Lemma list_comprehension_first_Raise {A B} (f : A → result B) (l : list A) (bad : A) :
  bad ∈ l → (∃ e, f bad = Raise e) →
  ∃ before first after e,
    l = before ++ first :: after ∧ Forall (λ x, ∃ y, f x = Ok y) before ∧
    f first = Raise e ∧ list_comprehension f l = Raise e.
Proof.
  intros Hin [e0 Hbad]. induction l as [|x l IH]; [by apply elem_of_nil in Hin |].
  simpl. destruct (f x) as [y|e] eqn:Hx.
  - apply elem_of_cons in Hin as [-> | Hin]; [congruence |].
    destruct (IH Hin) as (before & first & after & e & -> & Hbefore & Hfirst & ->).
    exists (x :: before), first, after, e. split_and!; [done | | done | done].
    constructor; [by exists y | done].
  - exists [], x, l, e. by split_and!.
Qed.

(** A comprehension that raises, raises on some element. *)
Lemma list_comprehension_Raise_inv {A B} (f : A → result B) (l : list A) (e : exn) :
  list_comprehension f l = Raise e → ∃ bad, bad ∈ l ∧ f bad = Raise e.
Proof.
  induction l as [|x l IH]; simpl; [done |].
  destruct (f x) as [y|e'] eqn:Hx.
  - destruct (list_comprehension f l) as [ys|e'']; [done |]. intros [= ->].
    destruct (IH eq_refl) as (bad & Hbad & Hraise). exists bad. split; [by right | done].
  - intros [= ->]. exists x. split; [by left | done].
Qed.

Lemma foldl_Zmax_ge (l : list Z) (x : Z) : (x ≤ foldl Z.max x l)%Z.
Proof. revert x. induction l as [|y l IH]; intros x; simpl; [lia |]. specialize (IH (Z.max x y)). lia. Qed.

Lemma foldl_Zmax_upper (l : list Z) (x y : Z) : y ∈ l → (y ≤ foldl Z.max x l)%Z.
Proof.
  revert x. induction l as [|z l IH]; intros x Hy; [by apply elem_of_nil in Hy |].
  simpl. apply elem_of_cons in Hy as [-> | Hy]; [| by apply IH].
  pose proof (foldl_Zmax_ge l (Z.max x z)). lia.
Qed.

Lemma foldl_Zmax_elem (l : list Z) (x : Z) : foldl Z.max x l ∈ x :: l.
Proof.
  revert x. induction l as [|y l IH]; intros x; simpl; [by left |].
  specialize (IH (Z.max x y)). apply elem_of_cons in IH as [-> | IH].
  - destruct (Z.max_spec x y) as [[_ ->] | [_ ->]]; [right; left | left].
  - by do 2 right.
Qed.

(** On instants that are all naive, or all aware, the loop of [max] computes
    the greatest of them. *)
Lemma max_from_instants (aware : bool) (l : list Z) (x : Z) :
  max_from (Instant aware x) (Instant aware <$> l) = Ok (Instant aware (foldl Z.max x l)).
Proof.
  revert x. induction l as [|y l IH]; intros x; [done |].
  rewrite fmap_cons. cbn [max_from timestamp_gt foldl]. rewrite Bool.eqb_reflx.
  replace (if (x <? y)%Z then Instant aware y else Instant aware x)
    with (Instant aware (Z.max x y)); [apply IH |].
  destruct (Z.ltb_spec x y); f_equal; lia.
Qed.

Lemma py_max_spec (aware : bool) (l : list Z) :
  l ≠ [] →
  ∃ m, py_max (Instant aware <$> l) = Ok (Instant aware m) ∧ m ∈ l ∧ ∀ y, y ∈ l → (y ≤ m)%Z.
Proof.
  destruct l as [|x l]; [done | intros _]. exists (foldl Z.max x l).
  rewrite fmap_cons. cbn [py_max]. rewrite max_from_instants.
  split_and!; [done | apply foldl_Zmax_elem |].
  intros y [-> | Hy]%elem_of_cons; [apply foldl_Zmax_ge | by apply foldl_Zmax_upper].
Qed.

(** [index] returns the first position of the instant. *)
Lemma py_index_spec (aware : bool) (x : Z) (l : list Z) :
  x ∈ l →
  ∃ i, py_index (Instant aware x) (Instant aware <$> l) = Ok i ∧ l !! i = Some x ∧
       ∀ j y, j < i → l !! j = Some y → y ≠ x.
Proof.
  induction l as [|y l IH]; intros Hx; [by apply elem_of_nil in Hx |].
  rewrite fmap_cons. cbn [py_index timestamp_is_or_eq]. rewrite Bool.eqb_reflx. cbn [andb].
  destruct (Z.eqb_spec y x) as [-> | Hne].
  - exists 0. split_and!; [done | done | lia].
  - apply elem_of_cons in Hx as [-> | Hx]; [done |].
    destruct (IH Hx) as (i & -> & Hi & Hfirst). exists (S i). split_and!; [done | done |].
    intros [|j] z Hj; simpl; [by intros [= <-] | apply Hfirst; lia].
Qed.

Lemma Forall2_lookup_pair {A B} (P : A → B → Prop) l k i y :
  Forall2 P l k → k !! i = Some y → ∃ x, l !! i = Some x ∧ P x y.
Proof. intros HF Hi. by eapply Forall2_lookup_r. Qed.

Lemma append_nil (t : string) : "" +:+ t = t.
Proof. reflexivity. Qed.

Lemma append_cons (c : Ascii.ascii) (s t : string) : String c s +:+ t = String c (s +:+ t).
Proof. reflexivity. Qed.

Lemma append_assoc (s t u : string) : (s +:+ t) +:+ u = s +:+ (t +:+ u).
Proof. induction s as [|c s IH]; [done |]. by rewrite !append_cons, IH. Qed.

Lemma length_append (s t : string) :
  String.length (s +:+ t) = String.length s + String.length t.
Proof. induction s as [|c s IH]; [done |]. rewrite append_cons. simpl. by rewrite IH. Qed.

(** Opening a file for writing and writing a text to it: when the path can
    be opened, the file holds the text afterwards, has the time of the write
    and is listed in its directory. *)
Lemma write_file_eq {num} (path text : string) (w : World num) :
  write_file path text w
  = if writable w path then
      (Ok (),
       {| listdir := listing_with path (listdir w); files := <[path := text]> (files w);
          mtime := <[path := clock w]> (mtime w); writable := writable w;
          clock := clock w; stdout := stdout w; figures := figures w |})
    else (Raise (OSError path), w).
Proof.
  unfold write_file, open_w, f_write. py_unfold.
  destruct (writable w path); [| done].
  cbn [listdir files mtime writable clock stdout figures].
  by rewrite lookup_insert_eq, !insert_insert_eq.
Qed.

(** ** The loader: which file is read, and when it raises *)

Section Loader.
Context {num : Type} `{Arith num} (E : Externals num).

(** The loader on a directory that can be listed and whose log names all
    parse: the choice of the file, the assertion, then the read. *)
Lemma load_on_parsed_names (w : World num) names ts data_filename :
  listdir w !! AUTOCALIBRATION_DATA_PATH = Some names →
  list_comprehension (file_datetime E) (tsv_files names) = Ok ts →
  load_autocalibration_results E data_filename w =
    match (match data_filename with
           | None => most_recent_file (tsv_files names) ts
           | Some f => Ok f
           end) with
    | Raise e => (Raise e, w)
    | Ok f =>
        if bool_decide (f ∈ tsv_files names) then read_events E f w
        else (Raise (AssertionError
                ("Specified file " +:+ f +:+ " not found in " +:+ AUTOCALIBRATION_DATA_PATH)), w)
    end.
Proof.
  intros Hls Hts. unfold load_autocalibration_results, os_listdir, py_assert.
  py_unfold. rewrite Hls, Hts.
  destruct data_filename as [f|]; [| destruct (most_recent_file _ _); [|done]];
    by case_bool_decide.
Qed.

(** The loader in a directory where the parse of some log name raises. *)
Lemma load_on_unparsed_name (w : World num) names e data_filename :
  listdir w !! AUTOCALIBRATION_DATA_PATH = Some names →
  list_comprehension (file_datetime E) (tsv_files names) = Raise e →
  load_autocalibration_results E data_filename w = (Raise e, w).
Proof.
  intros Hls Hts. unfold load_autocalibration_results, os_listdir. py_unfold.
  by rewrite Hls, Hts.
Qed.

(** Log names that all give an instant, all naive or all aware. *)
Lemma instants_of_names (aware : bool) (fs : list string) :
  Forall (λ f, ∃ t, file_datetime E f = Ok (Instant aware t)) fs →
  ∃ zs, list_comprehension (file_datetime E) fs = Ok (Instant aware <$> zs) ∧
        Forall2 (λ f t, file_datetime E f = Ok (Instant aware t)) fs zs.
Proof.
  induction 1 as [|f fs [t Ht] _ (zs & Hzs & HF)]; [by exists [] |].
  exists (t :: zs). split; [| by constructor]. cbn [list_comprehension]. by rewrite Ht, Hzs.
Qed.

(** The file [most_recent_file] returns carries the latest timestamp, and is
    the first in the list to do so. *)
Lemma most_recent_file_spec (aware : bool) (fs : list string) (zs : list Z) :
  fs ≠ [] →
  Forall2 (λ f t, file_datetime E f = Ok (Instant aware t)) fs zs →
  ∃ i f t, most_recent_file fs (Instant aware <$> zs) = Ok f ∧ fs !! i = Some f ∧
           file_datetime E f = Ok (Instant aware t) ∧
           (∀ f' t', f' ∈ fs → file_datetime E f' = Ok (Instant aware t') → (t' ≤ t)%Z) ∧
           (∀ j g t', j < i → fs !! j = Some g → file_datetime E g = Ok (Instant aware t') →
                      (t' < t)%Z).
Proof.
  intros Hne HF.
  assert (zs ≠ []) as Hzs by (destruct HF; done).
  destruct (py_max_spec aware zs Hzs) as (m & Hmax & Hm & Hup).
  destruct (py_index_spec aware m zs Hm) as (i & Hidx & Hi & Hfirst).
  destruct (Forall2_lookup_pair _ _ _ _ _ HF Hi) as (f & Hf & Hfm).
  assert (∀ j g t', fs !! j = Some g → file_datetime E g = Ok (Instant aware t') →
                    zs !! j = Some t') as Hstamp.
  { intros j g t' Hj Hg. destruct (Forall2_lookup_l _ _ _ _ _ HF Hj) as (t'' & Hj' & Ht'').
    congruence. }
  exists i, f, m. unfold most_recent_file, py_getitem. py_unfold.
  rewrite Hmax, Hidx, Hf. split_and!; [done | done | done | |].
  - intros f' t' Hf' Ht'. apply list_elem_of_lookup in Hf' as [j Hj].
    apply Hup. eapply list_elem_of_lookup_2. by eapply Hstamp.
  - intros j g t' Hlt Hj Ht'. pose proof (Hstamp j g t' Hj Ht') as Hj'.
    pose proof (Hfirst j t' Hlt Hj') as Hneq.
    assert (t' ≤ m)%Z by (apply Hup; by eapply list_elem_of_lookup_2). lia.
Qed.

(** With no file asked for, in a directory with a log and with log names
    that all give an instant, the loader goes on to read the file
    [most_recent_file] describes. *)
Lemma load_most_recent (aware : bool) (w : World num) (names : list string) :
  listdir w !! AUTOCALIBRATION_DATA_PATH = Some names →
  tsv_files names ≠ [] →
  Forall (λ f, ∃ t, file_datetime E f = Ok (Instant aware t)) (tsv_files names) →
  ∃ i f t,
    load_autocalibration_results E None w = read_events E f w ∧
    tsv_files names !! i = Some f ∧ file_datetime E f = Ok (Instant aware t) ∧
    (∀ f' t', f' ∈ tsv_files names → file_datetime E f' = Ok (Instant aware t') → (t' ≤ t)%Z) ∧
    (∀ j g t', j < i → tsv_files names !! j = Some g →
               file_datetime E g = Ok (Instant aware t') → (t' < t)%Z).
Proof.
  intros Hls Hne Hparse. destruct (instants_of_names aware _ Hparse) as (zs & Hc & HF).
  destruct (most_recent_file_spec aware _ zs Hne HF) as (i & f & t & Hm & Hi & Ht & Hup & Hfirst).
  exists i, f, t. rewrite (load_on_parsed_names w names _ None Hls Hc), Hm.
  rewrite bool_decide_eq_true_2 by (by eapply list_elem_of_lookup_2). by split_and!.
Qed.

(** Whatever the loader does after the assertion, it has printed the name
    of the file it reads. *)
Lemma read_events_stdout (f : string) (w : World num) :
  stdout (read_events E f w).2 = stdout w ++ ["loading_file: " +:+ f].
Proof.
  unfold read_events, print, read_text. py_unfold. simpl.
  destruct (files w !! _); simpl; [| done].
  repeat (match goal with |- context [match ?x with _ => _ end] => destruct x end; simpl); done.
Qed.
End Loader.

Lemma partition_spec (sep : Ascii.ascii) (s before after : string) :
  partition sep s = Some (before, after) →
  s = before +:+ String sep after ∧ contains_char sep before = false.
Proof.
  revert before. induction s as [|c s IH]; intros before; simpl; [done |].
  destruct (Ascii.eqb c sep) eqn:Hc.
  - intros [= <- <-]. apply Ascii.eqb_eq in Hc as ->. done.
  - destruct (partition sep s) as [[b a]|]; [| done].
    intros [= <- <-]. destruct (IH b eq_refl) as [-> Hb].
    simpl. by rewrite Hc, Hb.
Qed.

Lemma partition_None (sep : Ascii.ascii) (s : string) :
  partition sep s = None ↔ contains_char sep s = false.
Proof.
  induction s as [|c s IH]; simpl; [done |].
  destruct (Ascii.eqb c sep); simpl; [done |].
  destruct (partition sep s) as [[b a]|]; [| tauto].
  split; [done |]. intros Hs. by apply IH in Hs.
Qed.

Section LoaderSpec.
Context {num : Type} `{Arith num} (E : Externals num).


(** The first log name, in listing order, on which the parse raises decides
    the outcome of the load, whatever file was asked for. *)
Lemma load_first_unparsed_name (w : World num) (names : list string)
    (data_filename : option string) (bad : string) :
  listdir w !! AUTOCALIBRATION_DATA_PATH = Some names →
  bad ∈ tsv_files names → (∃ e, file_datetime E bad = Raise e) →
  ∃ before first after e,
    tsv_files names = before ++ first :: after ∧
    Forall (λ g, ∃ t, file_datetime E g = Ok t) before ∧
    file_datetime E first = Raise e ∧
    load_autocalibration_results E data_filename w = (Raise e, w).
Proof.
  intros Hls Hbad Hraise.
  destruct (list_comprehension_first_Raise (file_datetime E) _ bad Hbad Hraise)
    as (before & first & after & e & Hsplit & Hbefore & Hfirst & Hcomp).
  exists before, first, after, e. split_and!; [done | done | done |].
  by apply (load_on_unparsed_name E w names).
Qed.


(** C3, as the script has it.  Asking for a file that is not among the
    [.tsv] files of the directory always ends in an exception and never in
    the load of another file: nothing is read or printed.  When the parse of
    line 49 raises on no log name of the directory, that exception is the
    assertion error whose message names the file and the directory, and a
    file that is present is the one read.  When the parse raises on some log
    name, the call raises the exception of the first such name in listing
    order, for an absent and for a present file alike: the assertion is not
    reached. *)
Theorem missing_file_is_an_error (w : World num) (names : list string) (f : string) :
  listdir w !! AUTOCALIBRATION_DATA_PATH = Some names →
  (f ∉ tsv_files names → ∃ e, load_autocalibration_results E (Some f) w = (Raise e, w)) ∧
  (Forall (λ g, ∃ t, file_datetime E g = Ok t) (tsv_files names) →
   (f ∉ tsv_files names →
      load_autocalibration_results E (Some f) w
      = (Raise (AssertionError ("Specified file " +:+ f +:+ " not found in "
                                +:+ AUTOCALIBRATION_DATA_PATH)), w)) ∧
   (f ∈ tsv_files names →
      load_autocalibration_results E (Some f) w = read_events E f w)) ∧
  (∀ bad, bad ∈ tsv_files names → (∃ e, file_datetime E bad = Raise e) →
     ∃ before first after e,
       tsv_files names = before ++ first :: after ∧
       Forall (λ g, ∃ t, file_datetime E g = Ok t) before ∧
       file_datetime E first = Raise e ∧
       load_autocalibration_results E (Some f) w = (Raise e, w)) ∧
  (f ∈ tsv_files names →
     load_autocalibration_results E (Some f) w = read_events E f w ∨
     ∃ bad e, bad ∈ tsv_files names ∧ file_datetime E bad = Raise e ∧
              load_autocalibration_results E (Some f) w = (Raise e, w)).
Proof.
  intros Hls. split_and!.
  - intros Hf.
    destruct (list_comprehension (file_datetime E) (tsv_files names)) as [ts|e] eqn:Hcomp.
    + rewrite (load_on_parsed_names E w names ts (Some f) Hls Hcomp).
      rewrite bool_decide_eq_false_2 by done. by eexists.
    + exists e. by apply (load_on_unparsed_name E w names).
  - intros Hparse. destruct (list_comprehension_total _ _ Hparse) as [ts Hcomp].
    rewrite (load_on_parsed_names E w names ts (Some f) Hls Hcomp).
    split; intros Hf.
    + by rewrite bool_decide_eq_false_2.
    + by rewrite bool_decide_eq_true_2.
  - intros bad Hbad Hraise. by apply (load_first_unparsed_name w names (Some f) bad).
  - intros Hf.
    destruct (list_comprehension (file_datetime E) (tsv_files names)) as [ts|e] eqn:Hcomp.
    + left. rewrite (load_on_parsed_names E w names ts (Some f) Hls Hcomp).
      by rewrite bool_decide_eq_true_2.
    + right. destruct (list_comprehension_Raise_inv _ _ _ Hcomp) as (bad & Hbad & Hraise).
      exists bad, e. split_and!; [done | done |]. by apply (load_on_unparsed_name E w names).
Qed.

(** C2, as the script has it.  With no file asked for, a directory with at
    least one log, and log names that all give an instant (all naive, or all
    aware), the loader reads a log of the latest instant: the first such log
    in the order of the listing.  The instant chosen depends on the names
    only: listed in another order and with any modification times, the
    directory yields a file of the same instant, and the same file when no
    other log shares that instant. *)
Theorem most_recent_file_is_loaded (aware : bool) (w1 w2 : World num)
    (names1 names2 : list string) :
  listdir w1 !! AUTOCALIBRATION_DATA_PATH = Some names1 →
  listdir w2 !! AUTOCALIBRATION_DATA_PATH = Some names2 →
  names1 ≡ₚ names2 →
  tsv_files names1 ≠ [] →
  Forall (λ f, ∃ t, file_datetime E f = Ok (Instant aware t)) (tsv_files names1) →
  ∃ i1 i2 f1 f2 t,
    load_autocalibration_results E None w1 = read_events E f1 w1 ∧
    load_autocalibration_results E None w2 = read_events E f2 w2 ∧
    tsv_files names1 !! i1 = Some f1 ∧ tsv_files names2 !! i2 = Some f2 ∧
    f2 ∈ tsv_files names1 ∧
    file_datetime E f1 = Ok (Instant aware t) ∧ file_datetime E f2 = Ok (Instant aware t) ∧
    (∀ f' t', f' ∈ tsv_files names1 → file_datetime E f' = Ok (Instant aware t') → (t' ≤ t)%Z) ∧
    (∀ j g t', j < i1 → tsv_files names1 !! j = Some g →
               file_datetime E g = Ok (Instant aware t') → (t' < t)%Z) ∧
    (∀ j g t', j < i2 → tsv_files names2 !! j = Some g →
               file_datetime E g = Ok (Instant aware t') → (t' < t)%Z) ∧
    ((∀ f', f' ∈ tsv_files names1 → file_datetime E f' = Ok (Instant aware t) → f' = f1) →
     f2 = f1).
Proof.
  intros Hls1 Hls2 Hperm Hne Hparse.
  assert (tsv_files names1 ≡ₚ tsv_files names2) as Htsv
    by (unfold tsv_files; by rewrite Hperm).
  assert (tsv_files names2 ≠ []) as Hne2.
  { intros Hnil. rewrite Hnil in Htsv. by apply Permutation_nil_r in Htsv. }
  assert (Forall (λ f, ∃ t, file_datetime E f = Ok (Instant aware t)) (tsv_files names2))
    as Hparse2 by (by rewrite <- Htsv).
  destruct (load_most_recent E aware w1 names1 Hls1 Hne Hparse)
    as (i1 & f1 & t1 & Hload1 & Hi1 & Ht1 & Hup1 & Hfirst1).
  destruct (load_most_recent E aware w2 names2 Hls2 Hne2 Hparse2)
    as (i2 & f2 & t2 & Hload2 & Hi2 & Ht2 & Hup2 & Hfirst2).
  assert (f1 ∈ tsv_files names1) as Hin1 by (by eapply list_elem_of_lookup_2).
  assert (f2 ∈ tsv_files names2) as Hin2 by (by eapply list_elem_of_lookup_2).
  assert (f2 ∈ tsv_files names1) as Hin21 by (by rewrite Htsv).
  assert (f1 ∈ tsv_files names2) as Hin12 by (by rewrite <- Htsv).
  assert (t1 = t2) as <-.
  { pose proof (Hup1 f2 t2 Hin21 Ht2). pose proof (Hup2 f1 t1 Hin12 Ht1). lia. }
  exists i1, i2, f1, f2, t1. split_and!; try done.
  intros Huniq. by apply Huniq.
Qed.
End LoaderSpec.

(** *** The loader on the example installation *)

Lemma demo_logs_parse :
  Forall (λ f, ∃ t, file_datetime Demo.externals f = Ok t)
    (tsv_files [Demo.january; "notes.txt"; Demo.june; Demo.december]).
Proof. repeat constructor; eexists; vm_compute; reflexivity. Qed.

Lemma demo_logs_are_instants :
  Forall (λ f, ∃ t, file_datetime Demo.externals f = Ok (Instant false t))
    (tsv_files [Demo.january; "notes.txt"; Demo.june; Demo.december]).
Proof. repeat constructor; eexists; vm_compute; reflexivity. Qed.

Lemma tie_logs_are_instants :
  Forall (λ f, ∃ t, file_datetime Demo.externals f = Ok (Instant false t))
    (tsv_files [Demo.january; Cases.rig2; Cases.rig1]).
Proof. repeat constructor; eexists; vm_compute; reflexivity. Qed.



(** Listed first, the log without timestamp is even the one chosen when no
    file is asked for: no instant is greater than [NaT]. *)
Example name_without_timestamp_is_chosen :
  stdout (load_autocalibration_results Demo.externals None Cases.world_nat).2
  = ["loading_file: a-.tsv"].
Proof. vm_compute. reflexivity. Qed.

(** On the three logs of the specification's example the log of 2023-06-15 is
    the one read, in either listing order. *)
Lemma most_recent_file_is_loaded_witness :
  ∃ i1 i2 f1 f2 t,
    load_autocalibration_results Demo.externals None Demo.world
    = read_events Demo.externals f1 Demo.world ∧
    load_autocalibration_results Demo.externals None Demo.world_reordered
    = read_events Demo.externals f2 Demo.world_reordered ∧
    tsv_files [Demo.january; "notes.txt"; Demo.june; Demo.december] !! i1 = Some f1 ∧
    tsv_files [Demo.december; Demo.june; "notes.txt"; Demo.january] !! i2 = Some f2 ∧
    f2 ∈ tsv_files [Demo.january; "notes.txt"; Demo.june; Demo.december] ∧
    file_datetime Demo.externals f1 = Ok (Instant false t) ∧
    file_datetime Demo.externals f2 = Ok (Instant false t) ∧
    (∀ f' t', f' ∈ tsv_files [Demo.january; "notes.txt"; Demo.june; Demo.december] →
              file_datetime Demo.externals f' = Ok (Instant false t') → (t' ≤ t)%Z) ∧
    (∀ j g t', j < i1 →
               tsv_files [Demo.january; "notes.txt"; Demo.june; Demo.december] !! j = Some g →
               file_datetime Demo.externals g = Ok (Instant false t') → (t' < t)%Z) ∧
    (∀ j g t', j < i2 →
               tsv_files [Demo.december; Demo.june; "notes.txt"; Demo.january] !! j = Some g →
               file_datetime Demo.externals g = Ok (Instant false t') → (t' < t)%Z) ∧
    ((∀ f', f' ∈ tsv_files [Demo.january; "notes.txt"; Demo.june; Demo.december] →
            file_datetime Demo.externals f' = Ok (Instant false t) → f' = f1) → f2 = f1).
Proof.
  apply (most_recent_file_is_loaded Demo.externals false Demo.world Demo.world_reordered
           [Demo.january; "notes.txt"; Demo.june; Demo.december]
           [Demo.december; Demo.june; "notes.txt"; Demo.january] eq_refl eq_refl).
  - apply (reverse_Permutation [Demo.december; Demo.june; "notes.txt"; Demo.january]).
  - vm_compute. discriminate.
  - exact demo_logs_are_instants.
Defined.

Example june_log_is_loaded :
  stdout (load_autocalibration_results Demo.externals None Demo.world).2
  = ["loading_file: rig1-2023-06-15-120000.tsv"] ∧
  stdout (load_autocalibration_results Demo.externals None Demo.world_reordered).2
  = ["loading_file: rig1-2023-06-15-120000.tsv"].
Proof. split; vm_compute; reflexivity. Qed.

(** C2 as stated fails: the file chosen is not independent of the order of
    the listing.  Two logs carry the latest timestamp; listed in one order
    the loader reads the log of rig 2, which holds no event, and fails; listed
    in the other it reads the log of rig 1 and returns the table. *)
Lemma most_recent_file_depends_on_listing_order :
  listdir Cases.world_tie !! AUTOCALIBRATION_DATA_PATH
  = Some [Demo.january; Cases.rig2; Cases.rig1] ∧
  listdir Cases.world_tie_reordered !! AUTOCALIBRATION_DATA_PATH
  = Some [Demo.january; Cases.rig1; Cases.rig2] ∧
  [Demo.january; Cases.rig2; Cases.rig1] ≡ₚ [Demo.january; Cases.rig1; Cases.rig2] ∧
  files Cases.world_tie_reordered = files Cases.world_tie ∧
  mtime Cases.world_tie_reordered = mtime Cases.world_tie ∧
  Forall (λ f, ∃ t, file_datetime Demo.externals f = Ok (Instant false t))
    (tsv_files [Demo.january; Cases.rig2; Cases.rig1]) ∧
  load_autocalibration_results Demo.externals None Cases.world_tie
  = read_events Demo.externals Cases.rig2 Cases.world_tie ∧
  load_autocalibration_results Demo.externals None Cases.world_tie_reordered
  = read_events Demo.externals Cases.rig1 Cases.world_tie_reordered ∧
  (load_autocalibration_results Demo.externals None Cases.world_tie).1
  = Raise (AttributeError "release_weight") ∧
  (load_autocalibration_results Demo.externals None Cases.world_tie_reordered).1
  = Ok Demo.table.
Proof.
  split_and!; try (vm_compute; reflexivity).
  - apply perm_skip, perm_swap.
  - exact tie_logs_are_instants.
Qed.

(** C3 as stated fails: in a directory where one log name has no timestamp,
    asking for a file that is not there raises the [IndexError] of the name
    parse, whose message names neither the file nor the directory. *)
Lemma missing_file_masked_by_name_parse :
  ("absent.tsv" ∉ tsv_files [Demo.june; "calibration.tsv"]) ∧
  listdir Demo.world_unstamped !! AUTOCALIBRATION_DATA_PATH = Some [Demo.june; "calibration.tsv"] ∧
  load_autocalibration_results Demo.externals (Some "absent.tsv") Demo.world_unstamped
  = (Raise (IndexError "list index out of range"), Demo.world_unstamped).
Proof.
  split_and!; [| reflexivity | vm_compute; reflexivity].
  vm_compute. intros Hin. repeat (apply elem_of_cons in Hin as [[=] | Hin]).
  by apply elem_of_nil in Hin.
Qed.

(** In the directory of the example every name parses: an absent file ends
    in the assertion error and the June log, asked for by name, is read.  In
    the directory with the name without hyphen, the same two requests end in
    the [IndexError] of that name. *)
Lemma missing_file_is_an_error_witness :
  (∃ e, load_autocalibration_results Demo.externals (Some "absent.tsv") Demo.world
        = (Raise e, Demo.world)) ∧
  load_autocalibration_results Demo.externals (Some "absent.tsv") Demo.world
  = (Raise (AssertionError "Specified file absent.tsv not found in autocalibration_data"),
     Demo.world) ∧
  load_autocalibration_results Demo.externals (Some Demo.june) Demo.world
  = read_events Demo.externals Demo.june Demo.world ∧
  (∃ before first after e,
     tsv_files [Demo.june; "calibration.tsv"] = before ++ first :: after ∧
     Forall (λ g, ∃ t, file_datetime Demo.externals g = Ok t) before ∧
     file_datetime Demo.externals first = Raise e ∧
     load_autocalibration_results Demo.externals (Some Demo.june) Demo.world_unstamped
     = (Raise e, Demo.world_unstamped)).
Proof.
  assert ("absent.tsv" ∉ tsv_files [Demo.january; "notes.txt"; Demo.june; Demo.december]) as Habsent.
  { vm_compute. intros Hin. repeat (apply elem_of_cons in Hin as [[=] | Hin]).
    by apply elem_of_nil in Hin. }
  assert (Demo.june ∈ tsv_files [Demo.january; "notes.txt"; Demo.june; Demo.december]) as Hjune.
  { vm_compute. right. left. }
  destruct (missing_file_is_an_error Demo.externals Demo.world _ "absent.tsv" eq_refl)
    as (Hraise & Hassert & _ & _).
  destruct (missing_file_is_an_error Demo.externals Demo.world _ Demo.june eq_refl)
    as (_ & Hread & _ & _).
  destruct (missing_file_is_an_error Demo.externals Demo.world_unstamped
              [Demo.june; "calibration.tsv"] Demo.june eq_refl)
    as (_ & _ & Hmasked & _).
  split_and!.
  - exact (Hraise Habsent).
  - exact (proj1 (Hassert demo_logs_parse) Habsent).
  - exact (proj2 (Hread demo_logs_parse) Hjune).
  - apply (Hmasked "calibration.tsv").
    + vm_compute. right. left.
    + eexists. vm_compute. reflexivity.
Defined.

(** ** Dictionaries, loops over the pokes, and the fit frames *)

Lemma unique_elem_of (l : list string) (x : string) : x ∈ unique l ↔ x ∈ l.
Proof.
  induction l as [|y l IH]; simpl; [done |].
  rewrite !elem_of_cons, list_elem_of_filter, IH.
  destruct (decide (x = y)) as [-> | Hne]; [by split; [left | left] |].
  split; [intros [-> | [_ Hx]]; [done | by right] |].
  intros [-> | Hx]; [done | by right].
Qed.

Lemma unique_NoDup (l : list string) : NoDup (unique l).
Proof.
  induction l as [|y l IH]; simpl; constructor.
  - rewrite list_elem_of_filter. by intros [Hne _].
  - by apply NoDup_filter.
Qed.

Lemma dict_set_fresh {V} (k : string) (v : V) (d : list (string * V)) :
  k ∉ d.*1 → dict_set k v d = d ++ [(k, v)].
Proof.
  induction d as [|[k' v'] d IH]; simpl; [done |].
  rewrite not_elem_of_cons. intros [Hne Hk].
  rewrite bool_decide_eq_false_2 by done. by rewrite IH.
Qed.

Lemma for_each_ext {A S} (l : list A) (body body' : A → S → result S) (s : S) :
  (∀ x s, body x s = body' x s) → for_each l body s = for_each l body' s.
Proof.
  intros Hext. revert s. induction l as [|x l IH]; intros s; simpl; [done |].
  rewrite Hext. destruct (body' x s); [apply IH | done].
Qed.

(** A loop that stores one computed value per key, over distinct keys that
    are new to the dictionary, appends the items in the order of the keys. *)
Lemma for_each_dict_set {V} (g : string → result V) (keys : list string) (d : list (string * V)) :
  NoDup keys → (∀ k, k ∈ keys → k ∉ d.*1) →
  for_each keys (λ k d, match g k with Ok v => Ok (dict_set k v d) | Raise e => Raise e end) d
  = match list_comprehension g keys with
    | Ok vs => Ok (d ++ zip keys vs)
    | Raise e => Raise e
    end.
Proof.
  intros Hnd. revert d. induction Hnd as [|k keys Hk Hnd IH]; intros d Hfresh; simpl.
  - by rewrite app_nil_r.
  - destruct (g k) as [v|e]; [| done].
    rewrite dict_set_fresh by (apply Hfresh; left).
    rewrite IH.
    + destruct (list_comprehension g keys); [| done]. by rewrite <- app_assoc.
    + intros k' Hk'. rewrite fmap_app, elem_of_app. simpl.
      rewrite list_elem_of_singleton. intros [Hd | ->]; [| done].
      by apply (Hfresh k'); [right |].
Qed.

Lemma zip_with_cons_columns {A B} (f g : A → B) (l : list A) :
  zip_with cons (f <$> l) (zip_with cons (g <$> l) (replicate (length l) []))
  = (λ x, [f x; g x]) <$> l.
Proof. induction l as [|x l IH]; csimpl; [done | by f_equal]. Qed.


Section FitFrames.
Context {num : Type} `{Arith num} (E : Externals num).

(** The frame a fitter returns: one row per poke, the columns ["s"] and ["i"]. *)
Lemma T_DataFrame_of_dict (d : list (string * FitParams num)) :
  T (DataFrame_of_dict d)
  = {| df_index := d.*1;
       df_columns := match d with [] => [] | _ :: _ => ["s"; "i"] end;
       df_values := (λ f, [fit_s f; fit_i f]) <$> d.*2 |}.
Proof.
  destruct d as [|kv d]; [done |]. unfold T, DataFrame_of_dict, transpose.
  cbn [df_index df_columns df_values foldr]. f_equal.
  replace (length (kv :: d).*1) with (length (kv :: d).*2) by (by rewrite !length_fmap).
  apply zip_with_cons_columns.
Qed.

End FitFrames.

Section Fitters.
Context {num : Type} `{Arith num} (E : Externals num).

Lemma get_linear_regression_parameters_eq (autocal_df : list (Event num)) :
  get_linear_regression_parameters E autocal_df
  = match list_comprehension (poke_linear_fit E autocal_df) (unique (poke <$> autocal_df)) with
    | Ok fits => Ok (T (DataFrame_of_dict (zip (unique (poke <$> autocal_df)) fits)))
    | Raise e => Raise e
    end.
Proof.
  unfold get_linear_regression_parameters. py_unfold.
  rewrite (for_each_ext _ _
             (λ k d, match poke_linear_fit E autocal_df k with
                     | Ok v => Ok (dict_set k v d)
                     | Raise e => Raise e
                     end)).
  - rewrite for_each_dict_set; [| apply unique_NoDup | intros k _; apply not_elem_of_nil].
    by destruct (list_comprehension _ _).
  - intros p d. unfold poke_linear_fit. by destruct (polyfit E _ _) as [[slope intercept]|].
Qed.

Lemma get_mixed_effects_regression_parameters_eq (autocal_df : list (Event num)) :
  get_mixed_effects_regression_parameters E autocal_df
  = match mixedlm_fit E autocal_df with
    | Ok mdf =>
        match list_comprehension (poke_mixed_fit mdf) (unique (poke <$> autocal_df)) with
        | Ok fits => Ok (T (DataFrame_of_dict (zip (unique (poke <$> autocal_df)) fits)))
        | Raise e => Raise e
        end
    | Raise e => Raise e
    end.
Proof.
  unfold get_mixed_effects_regression_parameters. py_unfold.
  destruct (mixedlm_fit E autocal_df) as [mdf|]; [| done].
  rewrite (for_each_ext _ _
             (λ k d, match poke_mixed_fit mdf k with
                     | Ok v => Ok (dict_set k v d)
                     | Raise e => Raise e
                     end)).
  - rewrite for_each_dict_set; [| apply unique_NoDup | intros k _; apply not_elem_of_nil].
    by destruct (list_comprehension _ _).
  - intros p d. unfold poke_mixed_fit. by destruct (dict_get p _).
Qed.

Lemma get_loc_lookup (labels : list string) (i : nat) (label : string) :
  NoDup labels → labels !! i = Some label → get_loc label labels = Ok i.
Proof.
  intros Hnd. revert i. induction Hnd as [|l labels Hl Hnd IH]; intros i; [done |].
  destruct i as [|i]; simpl.
  - intros [= ->]. by rewrite bool_decide_eq_true_2.
  - intros Hi. rewrite bool_decide_eq_false_2.
    + by rewrite (IH i Hi).
    + intros ->. apply Hl. by eapply list_elem_of_lookup_2.
Qed.

(** Reading a fit frame at a poke gives the parameters stored for the poke. *)
Lemma loc_fit_frame (keys : list string) (fits : list (FitParams num)) (i : nat) (p : string) (f : FitParams num) :
  NoDup keys → length keys = length fits → keys !! i = Some p → fits !! i = Some f →
  loc (T (DataFrame_of_dict (zip keys fits))) p "s" = Ok (fit_s f) ∧
  loc (T (DataFrame_of_dict (zip keys fits))) p "i" = Ok (fit_i f).
Proof.
  intros Hnd Hlen Hp Hf. rewrite T_DataFrame_of_dict.
  rewrite fst_zip, snd_zip by lia.
  unfold loc, py_getitem. py_unfold. cbn [df_index df_columns df_values].
  rewrite (get_loc_lookup _ i p Hnd Hp), list_lookup_fmap, Hf.
  destruct keys as [|k keys]; [done |]. destruct fits as [|f0 fits]; done.
Qed.

Lemma list_comprehension_length {A B} (g : A → result B) (l : list A) (ys : list B) :
  list_comprehension g l = Ok ys → length l = length ys.
Proof. intros Hc. apply list_comprehension_Ok in Hc. by eapply Forall2_length. Qed.
End Fitters.

Section FitterSpec.
Context {num : Type} `{Arith num} (E : Externals num).

(** The frame built from one fit per key holds, at each key, the fit computed
    for that key, and no other cell. *)
Lemma fit_frame_cells (g : string → result (FitParams num)) (keys : list string)
    (fits : list (FitParams num)) :
  NoDup keys → list_comprehension g keys = Ok fits →
  df_index (T (DataFrame_of_dict (zip keys fits))) = keys ∧
  df_values (T (DataFrame_of_dict (zip keys fits))) = (λ f, [fit_s f; fit_i f]) <$> fits ∧
  Forall (λ f, ∃ p, p ∈ keys ∧ g p = Ok f) fits ∧
  ∀ p, p ∈ keys →
    ∃ f, g p = Ok f ∧
         loc (T (DataFrame_of_dict (zip keys fits))) p "s" = Ok (fit_s f) ∧
         loc (T (DataFrame_of_dict (zip keys fits))) p "i" = Ok (fit_i f).
Proof.
  intros Hnd Hc. pose proof (list_comprehension_length _ _ _ Hc) as Hlen.
  apply list_comprehension_Ok in Hc. split_and!.
  - rewrite T_DataFrame_of_dict. cbn [df_index]. by rewrite fst_zip by lia.
  - rewrite T_DataFrame_of_dict. cbn [df_values]. by rewrite snd_zip by lia.
  - apply Forall_forall. intros f Hf. apply list_elem_of_lookup in Hf as [i Hi].
    destruct (Forall2_lookup_r _ _ _ _ _ Hc Hi) as (p & Hp & Hg).
    exists p. split; [by eapply list_elem_of_lookup_2 | done].
  - intros p Hp. apply list_elem_of_lookup in Hp as [i Hi].
    destruct (Forall2_lookup_l _ _ _ _ _ Hc Hi) as (f & Hf & Hg).
    exists f. split; [done |]. by apply (loc_fit_frame keys fits i).
Qed.

(** Every slope and every intercept in the two fit collections is a value
    of [round(_, 2)]: for the independent fits, of the slope and the intercept
    [np.polyfit] returned for the events of the poke; for the mixed effects
    fits, of the fixed effect plus the random effect of the poke, the sum
    taken before the rounding. *)
Lemma fits_are_values_of_round (autocal_df : list (Event num)) (lr me : DataFrame num) :
  get_linear_regression_parameters E autocal_df = Ok lr →
  get_mixed_effects_regression_parameters E autocal_df = Ok me →
  (Forall (Forall (λ v, ∃ x, v = nround x 2)) (df_values lr) ∧
   ∀ p, p ∈ poke <$> autocal_df →
     ∃ slope intercept,
       polyfit E (single_release_vol <$> poke_rows p autocal_df)
                 (release_duration <$> poke_rows p autocal_df) = Ok (slope, intercept) ∧
       loc lr p "s" = Ok (nround slope 2) ∧
       loc lr p "i" = Ok (nround intercept 2)) ∧
  (Forall (Forall (λ v, ∃ x, v = nround x 2)) (df_values me) ∧
   ∃ mdf, mixedlm_fit E autocal_df = Ok mdf ∧
     ∀ p, p ∈ poke <$> autocal_df →
       ∃ re, dict_get p (random_effects mdf) = Ok re ∧
         loc me p "s"
         = Ok (nround (nadd (fe_single_release_vol mdf) (re_single_release_vol re)) 2) ∧
         loc me p "i"
         = Ok (nround (nadd (fe_Intercept mdf) (re_Group re)) 2)).
Proof.
  rewrite get_linear_regression_parameters_eq, get_mixed_effects_regression_parameters_eq.
  destruct (list_comprehension (poke_linear_fit E autocal_df) _) as [fits_lr|] eqn:Hlr; [| done].
  destruct (mixedlm_fit E autocal_df) as [mdf|]; [| done].
  destruct (list_comprehension (poke_mixed_fit mdf) _) as [fits_me|] eqn:Hme; [| done].
  intros [= <-] [= <-].
  destruct (fit_frame_cells _ _ _ (unique_NoDup _) Hlr) as (_ & -> & Hall_lr & Hloc_lr).
  destruct (fit_frame_cells _ _ _ (unique_NoDup _) Hme) as (_ & -> & Hall_me & Hloc_me).
  split; [split | split; [| exists mdf; split; [done |]]].
  - apply Forall_fmap. eapply Forall_impl; [exact Hall_lr |].
    intros f (p & _ & Hf). unfold poke_linear_fit in Hf.
    destruct (polyfit E _ _) as [[slope intercept]|]; [| done].
    injection Hf as <-. repeat constructor; by eexists.
  - intros p Hp. apply unique_elem_of in Hp.
    destruct (Hloc_lr p Hp) as (f & Hf & Hs & Hi). unfold poke_linear_fit in Hf.
    destruct (polyfit E _ _) as [[slope intercept]|]; [| done].
    injection Hf as <-. by exists slope, intercept.
  - apply Forall_fmap. eapply Forall_impl; [exact Hall_me |].
    intros f (p & _ & Hf). unfold poke_mixed_fit in Hf.
    destruct (dict_get p _) as [re|]; [| done].
    injection Hf as <-. repeat constructor; by eexists.
  - intros p Hp. apply unique_elem_of in Hp.
    destruct (Hloc_me p Hp) as (f & Hf & Hs & Hi). unfold poke_mixed_fit in Hf.
    destruct (dict_get p _) as [re|]; [| done].
    injection Hf as <-. by exists re.
Qed.
End FitterSpec.

(** ** What a run reads and what it leaves alone *)

Section Runs.
Context {num : Type} `{Arith num} (E : Externals num).

Lemma only_printed_refl (w : World num) : only_printed w w.
Proof. by repeat split. Qed.

Lemma read_events_eq (f : string) (w : World num) :
  read_events E f w
  = let w1 := (print ("loading_file: " +:+ f) w).2 in
    (match files w !! os_path_join AUTOCALIBRATION_DATA_PATH f with
     | None => Raise (FileNotFoundError (os_path_join AUTOCALIBRATION_DATA_PATH f))
     | Some text =>
         match read_csv E text with
         | Raise e => Raise e
         | Ok rows =>
             match list_comprehension (literal_eval E)
                     (content <$> filter (λ r, subtype r = "print") rows) with
             | Raise e => Raise e
             | Ok raws =>
                 match DataFrame_of_events raws with
                 | Raise e => Raise e
                 | Ok autocal_df => Ok (add_single_release_vol (apply_abs autocal_df))
                 end
             end
         end
     end, w1).
Proof.
  unfold read_events, print, read_text. py_unfold. cbn [files snd].
  destruct (files w !! _) as [text|]; [| done].
  destruct (read_csv E text) as [rows|]; [| done].
  destruct (list_comprehension _ _) as [raws|]; [| done].
  by destruct (DataFrame_of_events raws).
Qed.

Lemma read_events_only_printed (f : string) (w : World num) :
  only_printed w (read_events E f w).2.
Proof. rewrite read_events_eq. by repeat split. Qed.

(** The loader either raises before it touches anything, or goes on to read
    one of the logs of the directory. *)
Lemma load_cases (data_filename : option string) (w : World num) :
  (∃ e, load_autocalibration_results E data_filename w = (Raise e, w)) ∨
  (∃ names f, listdir w !! AUTOCALIBRATION_DATA_PATH = Some names ∧ f ∈ tsv_files names ∧
              (data_filename = None ∨ data_filename = Some f) ∧
              load_autocalibration_results E data_filename w = read_events E f w).
Proof.
  destruct (listdir w !! AUTOCALIBRATION_DATA_PATH) as [names|] eqn:Hls.
  - destruct (list_comprehension (file_datetime E) (tsv_files names)) as [ts|e] eqn:Hc.
    + rewrite (load_on_parsed_names E w names ts data_filename Hls Hc).
      destruct data_filename as [f|].
      * case_bool_decide; [right; exists names, f; by split_and!; [..| right |] | left; by eexists].
      * destruct (most_recent_file _ _) as [f|e]; [| left; by eexists].
        case_bool_decide; [right; exists names, f; by split_and!; [..| left |] | left; by eexists].
    + left. exists e. unfold load_autocalibration_results, os_listdir. py_unfold.
      by rewrite Hls, Hc.
  - left. eexists. unfold load_autocalibration_results, os_listdir. py_unfold.
    by rewrite Hls.
Qed.

Lemma load_only_printed (data_filename : option string) (w : World num) :
  only_printed w (load_autocalibration_results E data_filename w).2.
Proof.
  destruct (load_cases data_filename w) as [[e ->] | (names & f & _ & _ & _ & ->)].
  - apply only_printed_refl.
  - apply read_events_only_printed.
Qed.

(** A table the loader returns is the list of the dictionaries of the
    [print] lines of one log of the directory, with the weight replaced by
    its absolute value and the derived column added. *)
Lemma load_Ok (data_filename : option string) (w w' : World num) (autocal_df : list (Event num)) :
  load_autocalibration_results E data_filename w = (Ok autocal_df, w') →
  ∃ f text rows raws,
    files w !! os_path_join AUTOCALIBRATION_DATA_PATH f = Some text ∧
    read_csv E text = Ok rows ∧
    list_comprehension (literal_eval E) (content <$> filter (λ r, subtype r = "print") rows)
    = Ok raws ∧
    autocal_df = add_single_release_vol (apply_abs raws).
Proof.
  destruct (load_cases data_filename w) as [[e ->] | (names & f & _ & _ & _ & ->)]; [done |].
  rewrite read_events_eq. cbn zeta.
  destruct (files w !! _) as [text|] eqn:Htext; [| done].
  destruct (read_csv E text) as [rows|] eqn:Hrows; [| done].
  destruct (list_comprehension _ _) as [raws|] eqn:Hraws; [| done].
  destruct raws as [|r raws]; [done |]. cbn [DataFrame_of_events].
  intros [= <- _]. by exists f, text, rows, (r :: raws).
Qed.
End Runs.

(** The absolute value forgets the sign, in exact arithmetic and in binary64. *)
Lemma Qabs_Qopp_eq (x : Q) : Qabs (Qopp x) = Qabs x.
Proof. destruct x as [n d]. unfold Qabs, Qopp. simpl. by rewrite Z.abs_opp. Qed.

Lemma float_abs_opp (x : float) : PrimFloat.abs (PrimFloat.opp x) = PrimFloat.abs x.
Proof.
  apply Prim2SF_inj. rewrite !abs_spec, opp_spec.
  by destruct (Prim2SF x).
Qed.

Section VolumeSpec.
Context {num : Type} `{Arith num} (E : Externals num).
Hypothesis nabs_nopp : ∀ x : num, nabs (nopp x) = nabs x.

Lemma list_comprehension_negated (l : list string) :
  list_comprehension (literal_eval (with_negated_weights E)) l
  = match list_comprehension (literal_eval E) l with
    | Ok raws => Ok (negate_weight <$> raws)
    | Raise e => Raise e
    end.
Proof.
  induction l as [|s l IH]; [done |]. cbn [list_comprehension].
  rewrite IH. cbn [literal_eval with_negated_weights].
  destruct (literal_eval E s); [| done].
  destruct (list_comprehension (literal_eval E) l); reflexivity.
Qed.

Lemma apply_abs_negated (raws : list (RawEvent num)) :
  apply_abs (negate_weight <$> raws) = apply_abs raws.
Proof.
  unfold apply_abs. rewrite <- list_fmap_compose. apply list_fmap_ext.
  intros _ r _. unfold compose, negate_weight. cbn. by rewrite nabs_nopp.
Qed.

Lemma read_events_negated (f : string) (w : World num) :
  read_events (with_negated_weights E) f w = read_events E f w.
Proof.
  rewrite !read_events_eq. cbn zeta. f_equal.
  destruct (files w !! _) as [text|]; [| done].
  change (read_csv (with_negated_weights E)) with (read_csv E).
  destruct (read_csv E text) as [rows|]; [| done].
  rewrite list_comprehension_negated.
  destruct (list_comprehension (literal_eval E) _) as [raws|]; [| done].
  destruct raws as [|r raws]; [done |].
  rewrite fmap_cons. cbn [DataFrame_of_events].
  by rewrite <- fmap_cons, apply_abs_negated.
Qed.

Lemma load_negated (data_filename : option string) (w : World num) :
  load_autocalibration_results (with_negated_weights E) data_filename w
  = load_autocalibration_results E data_filename w.
Proof.
  unfold load_autocalibration_results, os_listdir. py_unfold.
  destruct (listdir w !! _) as [names|]; [| done].
  change (file_datetime (with_negated_weights E)) with (file_datetime E).
  destruct (list_comprehension (file_datetime E) _) as [ts|]; [| done].
  destruct (match data_filename with None => _ | Some f => _ end) as [f|]; [| done].
  unfold py_assert. case_bool_decide; [| done]. py_unfold.
  apply read_events_negated.
Qed.

(** C1. Every row of the table the loader returns comes from one dictionary
    of the log, in order, and its [single_release_vol] is
    [abs(release_weight) / n_release * 1000] of that dictionary, the division
    done before the multiplication; its [release_weight] is the absolute
    value.  In an arithmetic whose absolute value forgets the sign (exact
    rationals and binary64 both are), a log with the sign of every weight
    flipped loads to the same table. *)
Theorem single_release_vol_is_derived (data_filename : option string) (w w' : World num)
    (autocal_df : list (Event num)) :
  load_autocalibration_results E data_filename w = (Ok autocal_df, w') →
  (∃ f text rows raws,
     files w !! os_path_join AUTOCALIBRATION_DATA_PATH f = Some text ∧
     read_csv E text = Ok rows ∧
     list_comprehension (literal_eval E) (content <$> filter (λ r, subtype r = "print") rows)
     = Ok raws ∧
     Forall2 (λ raw e,
                poke e = raw_poke raw ∧
                release_duration e = raw_release_duration raw ∧
                n_release e = raw_n_release raw ∧
                release_weight e = nabs (raw_release_weight raw) ∧
                single_release_vol e
                = nmul (ndiv (nabs (raw_release_weight raw)) (raw_n_release raw)) (of_int 1000))
             raws autocal_df) ∧
  load_autocalibration_results (with_negated_weights E) data_filename w = (Ok autocal_df, w').
Proof.
  intros Hload. split; [| by rewrite load_negated].
  destruct (load_Ok E _ _ _ _ Hload) as (f & text & rows & raws & Htext & Hrows & Hraws & ->).
  exists f, text, rows, raws. split_and!; [done | done | done |].
  unfold add_single_release_vol, apply_abs. rewrite <- list_fmap_compose.
  apply Forall2_fmap_r, Forall_Forall2_diag, Forall_forall. by intros raw _.
Qed.
End VolumeSpec.

(** The loaded table of the example: the weight of -0.45 g over 10 releases
    gives 45 uL, as +0.45 g would. *)
Lemma single_release_vol_is_derived_witness :
  (∃ f text rows raws,
     files Demo.world !! os_path_join AUTOCALIBRATION_DATA_PATH f = Some text ∧
     read_csv Demo.externals text = Ok rows ∧
     list_comprehension (literal_eval Demo.externals)
       (content <$> filter (λ r, subtype r = "print") rows) = Ok raws ∧
     Forall2 (λ raw e,
                poke e = raw_poke raw ∧
                release_duration e = raw_release_duration raw ∧
                n_release e = raw_n_release raw ∧
                release_weight e = nabs (raw_release_weight raw) ∧
                single_release_vol e
                = nmul (ndiv (nabs (raw_release_weight raw)) (raw_n_release raw)) (of_int 1000))
             raws Demo.table) ∧
  load_autocalibration_results (with_negated_weights Demo.externals) None Demo.world
  = (Ok Demo.table, (load_autocalibration_results Demo.externals None Demo.world).2).
Proof.
  apply (single_release_vol_is_derived (H := Q_arith) Demo.externals Qabs_Qopp_eq None Demo.world).
  vm_compute. reflexivity.
Defined.

Example demo_volumes :
  single_release_vol <$> (add_single_release_vol (apply_abs
     [Demo.event "A1" 100 (-45 # 100) 10; Demo.event "A1" 100 (45 # 100) 10;
      Demo.event "B2" 65 (2 # 10) 10]))
  = [((45 # 100) / 10 * 1000)%Q; ((45 # 100) / 10 * 1000)%Q; ((2 # 10) / 10 * 1000)%Q].
Proof. reflexivity. Qed.

(** ** The entry point *)



Section EntryPoint.
Context {num : Type} `{Arith num} (E : Externals num).

Lemma get_poke_calibration_parameters_eq (data_filename : option string)
    (plot save_mixed_effects : bool) (save_filename : string) (w : World num) :
  get_poke_calibration_parameters E data_filename plot save_mixed_effects save_filename w
  = match load_autocalibration_results E data_filename w with
    | (Raise e, w1) => (Raise e, w1)
    | (Ok autocal_df, w1) =>
        match get_linear_regression_parameters E autocal_df with
        | Raise e => (Raise e, w1)
        | Ok lr =>
            match get_mixed_effects_regression_parameters E autocal_df with
            | Raise e => (Raise e, w1)
            | Ok me =>
                let w2 := if plot then (show_figure autocal_df me w1).2 else w1 in
                match write_file (os_path_join AUTOCALIBRATION_RESULTS_PATH save_filename)
                        (saved_text E save_mixed_effects lr me) w2 with
                | (Ok _, w3) => (Ok (lr, me), w3)
                | (Raise e, w3) => (Raise e, w3)
                end
            end
        end
    end.
Proof.
  unfold get_poke_calibration_parameters, plot_poke_calibration_fits, saved_text. py_unfold.
  destruct (load_autocalibration_results E data_filename w) as [[autocal_df|e] w1]; [| done].
  destruct (get_linear_regression_parameters E autocal_df) as [lr|]; [| done].
  destruct (get_mixed_effects_regression_parameters E autocal_df) as [me|]; [| done].
  unfold write_file. py_unfold.
  destruct plot; cbn [show_figure snd]; destruct (open_w _ _) as [[[]|] w3]; try done;
    by destruct save_mixed_effects.
Qed.

(** A run that raises has written no file: at most lines were printed and a
    figure shown. *)
Lemma failed_run_writes_nothing (data_filename : option string)
    (plot save_mixed_effects : bool) (save_filename : string) (w w' : World num) (e : exn) :
  get_poke_calibration_parameters E data_filename plot save_mixed_effects save_filename w
  = (Raise e, w') →
  files w' = files w ∧ mtime w' = mtime w.
Proof.
  rewrite get_poke_calibration_parameters_eq.
  pose proof (load_only_printed E data_filename w) as (_ & Hf & Hm & _).
  destruct (load_autocalibration_results E data_filename w) as [[autocal_df|e1] w1];
    cbn [snd] in Hf, Hm; [| by intros [= _ <-]].
  destruct (get_linear_regression_parameters E autocal_df) as [lr|]; [| by intros [= _ <-]].
  destruct (get_mixed_effects_regression_parameters E autocal_df) as [me|]; [| by intros [= _ <-]].
  cbn zeta. rewrite write_file_eq.
  destruct plot; cbn [show_figure snd writable]; destruct (writable w1 _); try done;
    by intros [= _ <-].
Qed.

(** C8. A run that returns, returns the pair of the independent fits and
    the mixed effects fits of the table it loaded, in this order; the plot
    flag, the save flag and the name of the output file have no part in the
    value: any other choice of them that also returns, returns the same pair. *)
Theorem run_returns_both_fit_collections (data_filename : option string)
    (plot save_mixed_effects : bool) (save_filename : string) (w w' : World num)
    (lr me : DataFrame num) :
  get_poke_calibration_parameters E data_filename plot save_mixed_effects save_filename w
  = (Ok (lr, me), w') →
  (∃ autocal_df w1,
     load_autocalibration_results E data_filename w = (Ok autocal_df, w1) ∧
     get_linear_regression_parameters E autocal_df = Ok lr ∧
     get_mixed_effects_regression_parameters E autocal_df = Ok me) ∧
  (∀ plot' save_mixed_effects' save_filename' fits w'',
     get_poke_calibration_parameters E data_filename plot' save_mixed_effects' save_filename' w
     = (Ok fits, w'') →
     fits = (lr, me)).
Proof.
  rewrite get_poke_calibration_parameters_eq.
  destruct (load_autocalibration_results E data_filename w) as [[autocal_df|e1] w1] eqn:Hload;
    [| done].
  destruct (get_linear_regression_parameters E autocal_df) as [lr0|] eqn:Hlr; [| done].
  destruct (get_mixed_effects_regression_parameters E autocal_df) as [me0|] eqn:Hme; [| done].
  cbn zeta. destruct (write_file _ _ _) as [[[]|] w3]; [| done].
  intros [= <- <- <-]. split; [by exists autocal_df, w1 |].
  intros plot' sme' save' fits w''. rewrite get_poke_calibration_parameters_eq, Hload, Hlr, Hme.
  cbn zeta. destruct (write_file _ _ _) as [[[]|] w4]; [| done]. by intros [= <- _].
Qed.




(** C10. Both fit collections are computed before the output file is
    opened: when the mixed effects optimisation raises on the loaded table,
    the run raises for every choice of the plot flag, the save flag and the
    output name, also when only the independent fits were to be saved; the
    exception is the optimiser's unless the independent fits raised first;
    and no file is created or changed, nor a figure shown.  More generally a
    run that raises, for whatever reason, leaves every file as it was. *)
Theorem mixed_effects_failure_writes_nothing (data_filename : option string) (w w1 : World num)
    (autocal_df : list (Event num)) (e : exn) :
  load_autocalibration_results E data_filename w = (Ok autocal_df, w1) →
  mixedlm_fit E autocal_df = Raise e →
  (∀ plot save_mixed_effects save_filename,
     ∃ e', get_poke_calibration_parameters E data_filename plot save_mixed_effects save_filename w
           = (Raise e', w1) ∧
           (∀ lr, get_linear_regression_parameters E autocal_df = Ok lr → e' = e)) ∧
  files w1 = files w ∧ mtime w1 = mtime w ∧ figures w1 = figures w ∧
  (∀ plot save_mixed_effects save_filename e' w',
     get_poke_calibration_parameters E data_filename plot save_mixed_effects save_filename w
     = (Raise e', w') →
     files w' = files w ∧ mtime w' = mtime w).
Proof.
  intros Hload Hfit.
  pose proof (load_only_printed E data_filename w) as Hframe. rewrite Hload in Hframe.
  destruct Hframe as (_ & Hf & Hm & _ & _ & Hfig). cbn [snd] in Hf, Hm, Hfig.
  split_and!; [| done | done | done |].
  - intros plot sme save. rewrite get_poke_calibration_parameters_eq, Hload.
    rewrite get_mixed_effects_regression_parameters_eq, Hfit.
    destruct (get_linear_regression_parameters E autocal_df) as [lr|e1].
    + exists e. split; [done |]. by intros _ _.
    + exists e1. split; [done |]. by intros lr [=].
  - intros plot sme save e' w'. apply failed_run_writes_nothing.
Qed.
End EntryPoint.

(** *** The fitters and the entry point on the example installation *)

Example demo_run :
  get_poke_calibration_parameters Demo.externals None true true "calibration_results.txt" Demo.world
  = (Ok (Demo.fits, Demo.fits_me),
     (get_poke_calibration_parameters Demo.externals None true true "calibration_results.txt"
        Demo.world).2) ∧
  files (get_poke_calibration_parameters Demo.externals None true true "calibration_results.txt"
           Demo.world).2 !! "autocalibration_results/calibration_results.txt"
  = Some "{'A1': {'s': 1.99, 'i': 14.18}, 'B2': {'s': 2.79, 'i': 10.18}}" ∧
  files (get_poke_calibration_parameters Demo.externals None true false "independent.txt"
           Demo.world).2 !! "autocalibration_results/independent.txt"
  = Some "{'A1': {'s': 2.0, 'i': 10.0}, 'B2': {'s': 3.0, 'i': 5.0}}".
Proof. split_and!; vm_compute; reflexivity. Qed.

Lemma run_returns_both_fit_collections_witness :
  (∃ autocal_df w1,
     load_autocalibration_results Demo.externals None Demo.world = (Ok autocal_df, w1) ∧
     get_linear_regression_parameters Demo.externals autocal_df = Ok Demo.fits ∧
     get_mixed_effects_regression_parameters Demo.externals autocal_df = Ok Demo.fits_me) ∧
  (∀ plot' save_mixed_effects' save_filename' fits w'',
     get_poke_calibration_parameters Demo.externals None plot' save_mixed_effects' save_filename'
       Demo.world = (Ok fits, w'') →
     fits = (Demo.fits, Demo.fits_me)).
Proof.
  apply (run_returns_both_fit_collections Demo.externals None false false "independent.txt"
           Demo.world
           (get_poke_calibration_parameters Demo.externals None false false "independent.txt"
              Demo.world).2).
  vm_compute. reflexivity.
Defined.


(** The two texts a run in binary64 can write. *)
#[warnings="-inexact-float"]
Example binary64_run :
  get_poke_calibration_parameters Binary64.externals None true true "calibration_results.txt"
    Binary64.world
  = (Ok (Binary64.fits_lr, Binary64.fits_me),
     (get_poke_calibration_parameters Binary64.externals None true true
        "calibration_results.txt" Binary64.world).2) ∧
  files (get_poke_calibration_parameters Binary64.externals None true true
           "calibration_results.txt" Binary64.world).2
    !! "autocalibration_results/calibration_results.txt"
  = Some "{'A1': {'s': 1.95, 'i': 15.17}, 'B2': {'s': 2.75, 'i': 9.54}}" ∧
  files (get_poke_calibration_parameters Binary64.externals None true false "independent.txt"
           Binary64.world).2 !! "autocalibration_results/independent.txt"
  = Some "{'A1': {'s': 2.0, 'i': 9.65}, 'B2': {'s': 2.99, 'i': 2.6}}" ∧
  literal_mapping quoted Binary64.externals [("A1", (2, 9.65)); ("B2", (2.99, 2.6))]%float
  = "{'A1': {'s': 2.0, 'i': 9.65}, 'B2': {'s': 2.99, 'i': 2.6}}".
Proof. split_and!; vm_compute; reflexivity. Qed.

Lemma mixed_effects_failure_writes_nothing_witness :
  (∀ plot save_mixed_effects save_filename,
     ∃ e', get_poke_calibration_parameters Demo.externals_singular None plot save_mixed_effects
             save_filename Demo.world
           = (Raise e', (load_autocalibration_results Demo.externals_singular None Demo.world).2) ∧
           (∀ lr, get_linear_regression_parameters Demo.externals_singular Demo.table = Ok lr →
                  e' = LibraryError "LinAlgError: Singular matrix")) ∧
  files (load_autocalibration_results Demo.externals_singular None Demo.world).2
  = files Demo.world ∧
  mtime (load_autocalibration_results Demo.externals_singular None Demo.world).2
  = mtime Demo.world ∧
  figures (load_autocalibration_results Demo.externals_singular None Demo.world).2
  = figures Demo.world ∧
  (∀ plot save_mixed_effects save_filename e' w',
     get_poke_calibration_parameters Demo.externals_singular None plot save_mixed_effects
       save_filename Demo.world = (Raise e', w') →
     files w' = files Demo.world ∧ mtime w' = mtime Demo.world).
Proof.
  apply (mixed_effects_failure_writes_nothing Demo.externals_singular None Demo.world _
           Demo.table (LibraryError "LinAlgError: Singular matrix")).
  - vm_compute. reflexivity.
  - reflexivity.
Defined.

Example singular_run_writes_nothing :
  get_poke_calibration_parameters Demo.externals_singular None true false "independent.txt"
    Demo.world
  = (Raise (LibraryError "LinAlgError: Singular matrix"),
     (load_autocalibration_results Demo.externals_singular None Demo.world).2) ∧
  files (get_poke_calibration_parameters Demo.externals_singular None true false
           "independent.txt" Demo.world).2 !! "autocalibration_results/independent.txt" = None.
Proof. split; vm_compute; reflexivity. Qed.

(** ** Rounding in binary64

    [round(x, 2)] on a numpy float scales by 100, takes [rint] and scales
    back, each step in binary64. *)

Lemma float_round_digits_two (x : float) :
  float_round_digits x 2 = (float_rint (x * 100) / 100)%float.
Proof. reflexivity. Qed.

(** [rint] rounds a tie to the even neighbour and keeps the sign of a result
    that is zero; the product by 100 is rounded before [rint] sees it. *)
#[warnings="-inexact-float"]
Example rint_and_round_in_binary64 :
  float_rint 0.5 = 0%float ∧ float_rint 1.5 = 2%float ∧ float_rint 2.5 = 2%float ∧
  float_rint (-2.5) = (-2)%float ∧ float_rint 197.49 = 197%float ∧
  float_rint 197.51 = 198%float ∧
  PrimFloat.get_sign (float_rint (-0.3)) = true ∧
  float_round_digits 1.9954278249510125 2 = 2%float ∧
  float_round_digits 9.6472893533638171 2 = 9.65%float ∧
  float_round_digits 2.675 2 = 2.68%float ∧
  float_round_digits 0.125 2 = 0.12%float ∧
  Binary64.repr64 (float_round_digits (-0.001) 2) = "-0.0".
Proof. split_and!; vm_compute; reflexivity. Qed.

(** C5. In the arithmetic of the script every slope and every intercept of
    the two fit collections is a value rounded to two places the way numpy
    rounds, [rint(x * 100) / 100] in binary64: for the independent fits [x]
    is the slope, or the intercept, that [np.polyfit] returned for the events
    of the poke; for the mixed effects fits it is the fixed effect plus the
    random effect of the poke, the sum taken before the rounding. *)
Theorem fits_are_rounded_to_two_places (E : Externals float) (autocal_df : list (Event float))
    (lr me : DataFrame float) :
  get_linear_regression_parameters E autocal_df = Ok lr →
  get_mixed_effects_regression_parameters E autocal_df = Ok me →
  (Forall (Forall (λ v, ∃ x, v = (float_rint (x * 100) / 100)%float)) (df_values lr) ∧
   ∀ p, p ∈ poke <$> autocal_df →
     ∃ slope intercept,
       polyfit E (single_release_vol <$> poke_rows p autocal_df)
                 (release_duration <$> poke_rows p autocal_df) = Ok (slope, intercept) ∧
       loc lr p "s" = Ok (float_rint (slope * 100) / 100)%float ∧
       loc lr p "i" = Ok (float_rint (intercept * 100) / 100)%float) ∧
  (Forall (Forall (λ v, ∃ x, v = (float_rint (x * 100) / 100)%float)) (df_values me) ∧
   ∃ mdf, mixedlm_fit E autocal_df = Ok mdf ∧
     ∀ p, p ∈ poke <$> autocal_df →
       ∃ re, dict_get p (random_effects mdf) = Ok re ∧
         loc me p "s"
         = Ok (float_rint ((fe_single_release_vol mdf + re_single_release_vol re) * 100)
               / 100)%float ∧
         loc me p "i"
         = Ok (float_rint ((fe_Intercept mdf + re_Group re) * 100) / 100)%float).
Proof.
  intros Hlr Hme.
  destruct (fits_are_values_of_round E autocal_df lr me Hlr Hme)
    as [[Hcells_lr Hloc_lr] [Hcells_me (mdf & Hfit & Hloc_me)]].
  split; [split | split; [| exists mdf; split; [done |]]].
  - eapply Forall_impl; [exact Hcells_lr |]. intros row Hrow.
    eapply Forall_impl; [exact Hrow |]. intros v [x ->]. by exists x.
  - intros p Hp. destruct (Hloc_lr p Hp) as (slope & intercept & Hfit' & Hs & Hi).
    by exists slope, intercept.
  - eapply Forall_impl; [exact Hcells_me |]. intros row Hrow.
    eapply Forall_impl; [exact Hrow |]. intros v [x ->]. by exists x.
  - intros p Hp. destruct (Hloc_me p Hp) as (re & Hre & Hs & Hi). by exists re.
Qed.

(** On the noisy log of the binary64 installation: the slope 1.9954... that
    the fit of poke A1 gives is stored as 2.0, its intercept 9.6472... as
    9.65. *)
Lemma fits_are_rounded_to_two_places_witness :
  (Forall (Forall (λ v, ∃ x, v = (float_rint (x * 100) / 100)%float))
     (df_values Binary64.fits_lr) ∧
   ∀ p, p ∈ poke <$> Binary64.table →
     ∃ slope intercept,
       polyfit Binary64.externals (single_release_vol <$> poke_rows p Binary64.table)
         (release_duration <$> poke_rows p Binary64.table) = Ok (slope, intercept) ∧
       loc Binary64.fits_lr p "s" = Ok (float_rint (slope * 100) / 100)%float ∧
       loc Binary64.fits_lr p "i" = Ok (float_rint (intercept * 100) / 100)%float) ∧
  (Forall (Forall (λ v, ∃ x, v = (float_rint (x * 100) / 100)%float))
     (df_values Binary64.fits_me) ∧
   ∃ mdf, mixedlm_fit Binary64.externals Binary64.table = Ok mdf ∧
     ∀ p, p ∈ poke <$> Binary64.table →
       ∃ re, dict_get p (random_effects mdf) = Ok re ∧
         loc Binary64.fits_me p "s"
         = Ok (float_rint ((fe_single_release_vol mdf + re_single_release_vol re) * 100)
               / 100)%float ∧
         loc Binary64.fits_me p "i"
         = Ok (float_rint ((fe_Intercept mdf + re_Group re) * 100) / 100)%float).
Proof.
  apply (fits_are_rounded_to_two_places Binary64.externals Binary64.table);
    vm_compute; reflexivity.
Defined.

#[warnings="-inexact-float"]
Example binary64_fits :
  polyfit Binary64.externals (single_release_vol <$> poke_rows "A1" Binary64.table)
    (release_duration <$> poke_rows "A1" Binary64.table)
  = Ok (1.9954278249510125, 9.6472893533638171)%float ∧
  loc Binary64.fits_lr "A1" "s" = Ok 2%float ∧
  loc Binary64.fits_lr "A1" "i" = Ok 9.65%float ∧
  get_linear_regression_parameters Binary64.externals Binary64.table = Ok Binary64.fits_lr ∧
  get_mixed_effects_regression_parameters Binary64.externals Binary64.table
  = Ok Binary64.fits_me.
Proof. split_and!; vm_compute; reflexivity. Qed.

(** ** Rounding in exact arithmetic *)




(** ** The shape of the fit frames *)


Section FitShapes.
Context {num : Type} `{Arith num} (E : Externals num).

(** The frame of the independent fits is built from one rounded pair per
    poke, the pokes in order of first appearance. *)
Lemma linear_fits_shape (autocal_df : list (Event num)) (lr : DataFrame num) :
  get_linear_regression_parameters E autocal_df = Ok lr →
  ∃ poke2fit, lr = T (DataFrame_of_dict poke2fit) ∧
              poke2fit.*1 = unique (poke <$> autocal_df) ∧
              Forall (λ kv, (∃ x, fit_s kv.2 = nround x 2) ∧ (∃ x, fit_i kv.2 = nround x 2))
                     poke2fit.
Proof.
  rewrite get_linear_regression_parameters_eq.
  destruct (list_comprehension (poke_linear_fit E autocal_df) _) as [fits|] eqn:Hfits; [| done].
  intros [= <-]. pose proof (list_comprehension_length _ _ _ Hfits) as Hlen.
  destruct (fit_frame_cells _ _ _ (unique_NoDup _) Hfits) as (_ & _ & Hall & _).
  eexists. split_and!; [done | by rewrite fst_zip by lia |].
  apply Forall_forall. intros [p f] Hpf. cbn [snd].
  apply elem_of_zip_r in Hpf. rewrite Forall_forall in Hall.
  destruct (Hall f Hpf) as (p' & _ & Hf). unfold poke_linear_fit in Hf.
  destruct (polyfit E _ _) as [[slope intercept]|]; [| done].
  injection Hf as <-. split; by eexists.
Qed.

Lemma mixed_fits_shape (autocal_df : list (Event num)) (me : DataFrame num) :
  get_mixed_effects_regression_parameters E autocal_df = Ok me →
  ∃ poke2fit, me = T (DataFrame_of_dict poke2fit) ∧
              poke2fit.*1 = unique (poke <$> autocal_df) ∧
              Forall (λ kv, (∃ x, fit_s kv.2 = nround x 2) ∧ (∃ x, fit_i kv.2 = nround x 2))
                     poke2fit.
Proof.
  rewrite get_mixed_effects_regression_parameters_eq.
  destruct (mixedlm_fit E autocal_df) as [mdf|]; [| done].
  destruct (list_comprehension (poke_mixed_fit mdf) _) as [fits|] eqn:Hfits; [| done].
  intros [= <-]. pose proof (list_comprehension_length _ _ _ Hfits) as Hlen.
  destruct (fit_frame_cells _ _ _ (unique_NoDup _) Hfits) as (_ & _ & Hall & _).
  eexists. split_and!; [done | by rewrite fst_zip by lia |].
  apply Forall_forall. intros [p f] Hpf. cbn [snd].
  apply elem_of_zip_r in Hpf. rewrite Forall_forall in Hall.
  destruct (Hall f Hpf) as (p' & _ & Hf). unfold poke_mixed_fit in Hf.
  destruct (dict_get p' _) as [re|]; [| done].
  injection Hf as <-. split; by eexists.
Qed.
End FitShapes.

(** * Further properties of the script *)

(** ** The loader: what it prints, and which lines of the log it reads *)

Lemma filter_none {A} (P : A → Prop) `{∀ x, Decision (P x)} (l : list A) :
  Forall (λ x, ¬ P x) l → filter P l = [].
Proof. induction 1 as [|x l Hx _ IH]; [done |]. by rewrite filter_cons_False. Qed.

Lemma list_comprehension_fmap {A B C} (f : B → result C) (g : A → B) (l : list A) :
  list_comprehension f (g <$> l) = list_comprehension (λ x, f (g x)) l.
Proof. induction l as [|x l IH]; [done |]. csimpl. by rewrite IH. Qed.

Section LoaderEffects.
Context {num : Type} `{Arith num} (E : Externals num).

(** The loader changes nothing but the console: files, modification times,
    listings and figures are as before.  Either it raises with nothing
    printed, or it has printed one line, naming the log of the directory it
    went on to read. *)
Theorem load_only_reads_and_prints (data_filename : option string) (w : World num) :
  only_printed w (load_autocalibration_results E data_filename w).2 ∧
  ((∃ e, load_autocalibration_results E data_filename w = (Raise e, w)) ∨
   (∃ names f,
      listdir w !! AUTOCALIBRATION_DATA_PATH = Some names ∧ f ∈ tsv_files names ∧
      stdout (load_autocalibration_results E data_filename w).2
      = stdout w ++ ["loading_file: " +:+ f])).
Proof.
  split; [apply load_only_printed |].
  destruct (load_cases E data_filename w) as [Hraise | (names & f & Hls & Hf & _ & ->)].
  - by left.
  - right. exists names, f. split_and!; [done | done | apply read_events_stdout].
Qed.

(** Reading a named log that is listed, in a directory whose log names all
    give a timestamp. *)
Lemma load_named (w : World num) (names : list string) (f : string) :
  listdir w !! AUTOCALIBRATION_DATA_PATH = Some names →
  Forall (λ g, ∃ t, file_datetime E g = Ok t) (tsv_files names) →
  f ∈ tsv_files names →
  load_autocalibration_results E (Some f) w = read_events E f w.
Proof.
  intros Hls Hparse Hf. destruct (list_comprehension_total _ _ Hparse) as [ts Hts].
  rewrite (load_on_parsed_names E w names ts (Some f) Hls Hts).
  by rewrite bool_decide_eq_true_2.
Qed.

(** A log without [print] lines does not load to an empty table: the frame
    built from no dictionaries has no [release_weight] column, and the load
    raises [AttributeError] after it has printed the name of the log. *)
Theorem log_without_print_lines_fails (w : World num) (names : list string) (f text : string)
    (rows : list tsv_row) :
  listdir w !! AUTOCALIBRATION_DATA_PATH = Some names →
  Forall (λ g, ∃ t, file_datetime E g = Ok t) (tsv_files names) →
  f ∈ tsv_files names →
  files w !! os_path_join AUTOCALIBRATION_DATA_PATH f = Some text →
  read_csv E text = Ok rows →
  Forall (λ r, subtype r ≠ "print") rows →
  load_autocalibration_results E (Some f) w
  = (Raise (AttributeError "release_weight"), (print ("loading_file: " +:+ f) w).2).
Proof.
  intros Hls Hparse Hf Htext Hrows Hnone.
  rewrite (load_named w names f Hls Hparse Hf), read_events_eq. cbn zeta.
  by rewrite Htext, Hrows, (filter_none _ rows Hnone).
Qed.

(** The [print] lines of a log are evaluated in order, and the first one
    that [ast.literal_eval] rejects ends the load with its exception; the
    name of the log has been printed by then. *)
Theorem malformed_print_line_aborts_load (w : World num) (names : list string) (f text : string)
    (rows : list tsv_row) (bad : tsv_row) :
  listdir w !! AUTOCALIBRATION_DATA_PATH = Some names →
  Forall (λ g, ∃ t, file_datetime E g = Ok t) (tsv_files names) →
  f ∈ tsv_files names →
  files w !! os_path_join AUTOCALIBRATION_DATA_PATH f = Some text →
  read_csv E text = Ok rows →
  bad ∈ rows → subtype bad = "print" → (∃ e, literal_eval E (content bad) = Raise e) →
  ∃ before first after e,
    filter (λ r, subtype r = "print") rows = before ++ first :: after ∧
    Forall (λ r, ∃ raw, literal_eval E (content r) = Ok raw) before ∧
    literal_eval E (content first) = Raise e ∧
    load_autocalibration_results E (Some f) w
    = (Raise e, (print ("loading_file: " +:+ f) w).2).
Proof.
  intros Hls Hparse Hf Htext Hrows Hbad Hprint Hraise.
  assert (bad ∈ filter (λ r, subtype r = "print") rows) as Hin
    by (by apply list_elem_of_filter).
  destruct (list_comprehension_first_Raise (λ r, literal_eval E (content r)) _ bad Hin Hraise)
    as (before & first & after & e & Hsplit & Hbefore & Hfirst & Hc).
  exists before, first, after, e. split_and!; [done | done | done |].
  rewrite (load_named w names f Hls Hparse Hf), read_events_eq. cbn zeta.
  by rewrite Htext, Hrows, list_comprehension_fmap, Hc.
Qed.

(** Only the [print] lines of a log count: two installations that differ in
    the text of one log, the two texts having the same [print] lines, load
    to the same result. *)
Theorem only_print_lines_are_read (w w' : World num) (data_filename : option string)
    (f text text' : string) (rows rows' : list tsv_row) :
  listdir w' = listdir w →
  (∀ path, path ≠ os_path_join AUTOCALIBRATION_DATA_PATH f → files w' !! path = files w !! path) →
  files w !! os_path_join AUTOCALIBRATION_DATA_PATH f = Some text →
  files w' !! os_path_join AUTOCALIBRATION_DATA_PATH f = Some text' →
  read_csv E text = Ok rows →
  read_csv E text' = Ok rows' →
  filter (λ r, subtype r = "print") rows' = filter (λ r, subtype r = "print") rows →
  (load_autocalibration_results E data_filename w').1
  = (load_autocalibration_results E data_filename w).1.
Proof.
  intros Hls Hother Htext Htext' Hrows Hrows' Hprint.
  unfold load_autocalibration_results, os_listdir, py_assert. py_unfold. rewrite Hls.
  destruct (listdir w !! _) as [names|]; [| done].
  destruct (list_comprehension (file_datetime E) _) as [ts|]; [| done].
  destruct (match data_filename with None => _ | Some g => _ end) as [g|]; [| done].
  case_bool_decide; [| done]. rewrite !read_events_eq. cbn [fst].
  destruct (decide (os_path_join AUTOCALIBRATION_DATA_PATH g
                    = os_path_join AUTOCALIBRATION_DATA_PATH f)) as [-> | Hne].
  - by rewrite Htext, Htext', Hrows, Hrows', Hprint.
  - by rewrite (Hother _ Hne).
Qed.
End LoaderEffects.

Lemma log_without_print_lines_fails_witness :
  load_autocalibration_results Demo.externals (Some Demo.january) Demo.world
  = (Raise (AttributeError "release_weight"),
     (print ("loading_file: " +:+ Demo.january) Demo.world).2).
Proof.
  apply (log_without_print_lines_fails Demo.externals Demo.world
           [Demo.january; "notes.txt"; Demo.june; Demo.december] Demo.january "january log" []).
  - reflexivity.
  - exact demo_logs_parse.
  - vm_compute. left.
  - reflexivity.
  - reflexivity.
  - constructor.
Defined.

Lemma malformed_print_line_aborts_load_witness :
  ∃ before first after e,
    filter (λ r, subtype r = "print") Cases.broken_rows = before ++ first :: after ∧
    Forall (λ r, ∃ raw, literal_eval Cases.externals_broken (content r) = Ok raw) before ∧
    literal_eval Cases.externals_broken (content first) = Raise e ∧
    load_autocalibration_results Cases.externals_broken (Some Demo.june) Demo.world
    = (Raise e, (print ("loading_file: " +:+ Demo.june) Demo.world).2).
Proof.
  apply (malformed_print_line_aborts_load Cases.externals_broken Demo.world
           [Demo.january; "notes.txt"; Demo.june; Demo.december] Demo.june "june log"
           Cases.broken_rows {| subtype := "print"; content := "{'poke': " |}).
  - reflexivity.
  - exact demo_logs_parse.
  - vm_compute. right. left.
  - reflexivity.
  - reflexivity.
  - do 2 right. left.
  - reflexivity.
  - eexists. vm_compute. reflexivity.
Defined.

(** The line the example stops at is the second one, "calibration started",
    not the truncated dictionary after it. *)
Example broken_log_stops_at_first_bad_line :
  (load_autocalibration_results Cases.externals_broken (Some Demo.june) Demo.world).1
  = Raise (ValueError "malformed node or string: calibration started").
Proof. vm_compute. reflexivity. Qed.

Lemma only_print_lines_are_read_witness :
  (load_autocalibration_results Cases.externals_noisy None Cases.world_noisy).1
  = (load_autocalibration_results Cases.externals_noisy None Demo.world).1.
Proof.
  apply (only_print_lines_are_read Cases.externals_noisy Demo.world Cases.world_noisy None
           Demo.june "june log" "noisy june log" Demo.june_rows
           ({| subtype := "warning"; content := "{'poke': " |} :: Demo.june_rows)).
  - reflexivity.
  - intros path Hne. cbn [files Cases.world_noisy]. by rewrite lookup_insert_ne.
  - reflexivity.
  - reflexivity.
  - reflexivity.
  - reflexivity.
  - reflexivity.
Defined.

(** ** The names of the logs *)

Lemma partition_append (sep : Ascii.ascii) (before after : string) :
  contains_char sep before = false →
  partition sep (before +:+ String sep after) = Some (before, after).
Proof.
  induction before as [|c before IH].
  - intros _. rewrite append_nil. cbn [partition]. by rewrite Ascii.eqb_refl.
  - cbn [contains_char]. rewrite append_cons. cbn [partition].
    destruct (Ascii.eqb c sep); [done |]. cbn [orb]. intros Hb. by rewrite (IH Hb).
Qed.

Lemma substring_suffix (s suffix : string) :
  String.substring (String.length s) (String.length suffix) (s +:+ suffix) = suffix.
Proof.
  induction s as [|c s IH].
  - rewrite append_nil. cbn [String.length].
    induction suffix as [|c suffix IH]; [done |].
    cbn [String.length String.substring]. by rewrite IH.
  - rewrite append_cons. apply IH.
Qed.

Lemma endswith_append (s suffix : string) : endswith (s +:+ suffix) suffix = true.
Proof.
  unfold endswith. cbn zeta. rewrite length_append.
  rewrite bool_decide_eq_true_2 by lia.
  replace (String.length s + String.length suffix - String.length suffix)
    with (String.length s) by lia.
  rewrite substring_suffix. apply String.eqb_refl.
Qed.

Section LogNames.
Context {num : Type} `{Arith num} (E : Externals num).

(** The name format the loader understands: a subject without a hyphen, a
    hyphen, a timestamp without a dot (it may hold hyphens), and [.tsv]. Such
    a name is taken as a log, and its instant is [pd.to_datetime] of the
    timestamp. *)
Theorem log_name_format (subject stamp : string) :
  contains_char "-" subject = false →
  contains_char "." stamp = false →
  tsv_files [subject +:+ "-" +:+ stamp +:+ ".tsv"] = [subject +:+ "-" +:+ stamp +:+ ".tsv"] ∧
  file_datetime E (subject +:+ "-" +:+ stamp +:+ ".tsv") = to_datetime E stamp.
Proof.
  intros Hsubject Hstamp. split.
  - unfold tsv_files. rewrite filter_cons_True; [done |].
    rewrite <- !append_assoc. by rewrite endswith_append.
  - unfold file_datetime, split_once_tail, split_head. py_unfold.
    change ("-" +:+ stamp +:+ ".tsv") with (String "-" (stamp +:+ ".tsv")).
    rewrite (partition_append "-" subject _ Hsubject).
    change (stamp +:+ ".tsv") with (stamp +:+ String "." "tsv").
    by rewrite (partition_append "." stamp _ Hstamp).
Qed.

(** With no file asked for, and log names that all give an instant (all
    naive, or all aware), the log read is the first one in the listing order
    of the directory among those with the latest timestamp: every log listed
    before it is strictly older. *)
Theorem latest_tie_reads_first_listed (aware : bool) (w : World num) (names : list string) :
  listdir w !! AUTOCALIBRATION_DATA_PATH = Some names →
  tsv_files names ≠ [] →
  Forall (λ g, ∃ t, file_datetime E g = Ok (Instant aware t)) (tsv_files names) →
  ∃ i f t,
    tsv_files names !! i = Some f ∧ file_datetime E f = Ok (Instant aware t) ∧
    (∀ g t', g ∈ tsv_files names → file_datetime E g = Ok (Instant aware t') → (t' ≤ t)%Z) ∧
    (∀ j g t', j < i → tsv_files names !! j = Some g →
               file_datetime E g = Ok (Instant aware t') → (t' < t)%Z) ∧
    load_autocalibration_results E None w = read_events E f w.
Proof.
  intros Hls Hne Hparse.
  destruct (load_most_recent E aware w names Hls Hne Hparse)
    as (i & f & t & Hload & Hi & Ht & Hup & Hfirst).
  exists i, f, t. by split_and!.
Qed.
End LogNames.

Lemma log_name_format_witness :
  tsv_files ["rig1" +:+ "-" +:+ "2023-06-15-120000" +:+ ".tsv"]
  = ["rig1" +:+ "-" +:+ "2023-06-15-120000" +:+ ".tsv"] ∧
  file_datetime Demo.externals ("rig1" +:+ "-" +:+ "2023-06-15-120000" +:+ ".tsv")
  = to_datetime Demo.externals "2023-06-15-120000".
Proof. apply (log_name_format Demo.externals "rig1" "2023-06-15-120000"); reflexivity. Defined.

Lemma latest_tie_reads_first_listed_witness :
  ∃ i f t,
    tsv_files [Demo.january; Cases.rig2; Cases.rig1] !! i = Some f ∧
    file_datetime Demo.externals f = Ok (Instant false t) ∧
    (∀ g t', g ∈ tsv_files [Demo.january; Cases.rig2; Cases.rig1] →
             file_datetime Demo.externals g = Ok (Instant false t') → (t' ≤ t)%Z) ∧
    (∀ j g t', j < i → tsv_files [Demo.january; Cases.rig2; Cases.rig1] !! j = Some g →
               file_datetime Demo.externals g = Ok (Instant false t') → (t' < t)%Z) ∧
    load_autocalibration_results Demo.externals None Cases.world_tie
    = read_events Demo.externals f Cases.world_tie.
Proof.
  apply (latest_tie_reads_first_listed Demo.externals false Cases.world_tie
           [Demo.january; Cases.rig2; Cases.rig1]).
  - reflexivity.
  - vm_compute. discriminate.
  - exact tie_logs_are_instants.
Defined.

(** Of the two logs of 2023-06-15 12:00:00, the one listed first is read. *)
Example tie_reads_rig2 :
  stdout (load_autocalibration_results Demo.externals None Cases.world_tie).2
  = ["loading_file: rig2-2023-06-15-120000.tsv"].
Proof. vm_compute. reflexivity. Qed.

(** ** The fitters: shape of the frames, and how they fail *)

Lemma dict_get_Raise {V} (k : string) (d : list (string * V)) (e : exn) :
  dict_get k d = Raise e ↔ (k ∉ d.*1) ∧ e = KeyError k.
Proof.
  induction d as [|[k' v] d IH]; simpl.
  - split; [intros [= <-]; split; [apply not_elem_of_nil | done] | by intros [_ ->]].
  - rewrite not_elem_of_cons. case_bool_decide as Hk.
    + split; [done | intros [[Hne _] _]; by subst].
    + rewrite IH. split; [intros [? ?]; by split_and! | by intros [[_ ?] ?]].
Qed.

Lemma dict_get_Ok {V} (k : string) (d : list (string * V)) (v : V) :
  dict_get k d = Ok v → k ∈ d.*1.
Proof.
  induction d as [|[k' v'] d IH]; simpl; [done |].
  case_bool_decide as Hk; [intros _; subst; left | intros Hd; right; by apply IH].
Qed.

Section FitterEdges.
Context {num : Type} `{Arith num} (E : Externals num).


(** The mixed effects fit of a poke, read from the frame the fitter returns. *)
Lemma mixed_fit_at (autocal_df : list (Event num)) (me : DataFrame num) (p : string) :
  get_mixed_effects_regression_parameters E autocal_df = Ok me →
  p ∈ poke <$> autocal_df →
  ∃ mdf re,
    mixedlm_fit E autocal_df = Ok mdf ∧ dict_get p (random_effects mdf) = Ok re ∧
    loc me p "s" = Ok (nround (nadd (fe_single_release_vol mdf) (re_single_release_vol re)) 2) ∧
    loc me p "i" = Ok (nround (nadd (fe_Intercept mdf) (re_Group re)) 2).
Proof.
  rewrite get_mixed_effects_regression_parameters_eq.
  destruct (mixedlm_fit E autocal_df) as [mdf|]; [| done].
  destruct (list_comprehension (poke_mixed_fit mdf) _) as [fits|] eqn:Hfits; [| done].
  intros [= <-] Hp. apply unique_elem_of in Hp.
  destruct (fit_frame_cells _ _ _ (unique_NoDup _) Hfits) as (_ & _ & _ & Hloc).
  destruct (Hloc p Hp) as (f & Hf & Hs & Hi). unfold poke_mixed_fit in Hf.
  destruct (dict_get p _) as [re|] eqn:Hre; [| done].
  injection Hf as <-. by exists mdf, re.
Qed.

Lemma fit_frame_shape (poke2fit : list (string * FitParams num)) :
  length (df_values (T (DataFrame_of_dict poke2fit)))
  = length (df_index (T (DataFrame_of_dict poke2fit))) ∧
  Forall (λ row, length row = 2) (df_values (T (DataFrame_of_dict poke2fit))) ∧
  (poke2fit ≠ [] → df_columns (T (DataFrame_of_dict poke2fit)) = ["s"; "i"]).
Proof.
  rewrite T_DataFrame_of_dict. cbn [df_index df_columns df_values]. split_and!.
  - by rewrite !length_fmap.
  - by apply Forall_fmap, Forall_true.
  - by destruct poke2fit.
Qed.

(** The two frames of a table are aligned: both have one row per poke, the
    pokes without repetition in the order in which they first appear in the
    table, the same columns (["s"] and ["i"] as soon as there is an event),
    and two cells in every row. *)
Theorem fit_frames_are_aligned (autocal_df : list (Event num)) (lr me : DataFrame num) :
  get_linear_regression_parameters E autocal_df = Ok lr →
  get_mixed_effects_regression_parameters E autocal_df = Ok me →
  df_index lr = unique (poke <$> autocal_df) ∧ df_index me = df_index lr ∧
  NoDup (df_index lr) ∧
  (∀ p, p ∈ df_index lr ↔ ∃ e, e ∈ autocal_df ∧ poke e = p) ∧
  df_columns me = df_columns lr ∧ (autocal_df ≠ [] → df_columns lr = ["s"; "i"]) ∧
  length (df_values lr) = length (df_index lr) ∧
  length (df_values me) = length (df_index me) ∧
  Forall (λ row, length row = 2) (df_values lr ++ df_values me).
Proof.
  intros Hlr Hme.
  destruct (linear_fits_shape E _ _ Hlr) as (d_lr & -> & Hkeys_lr & _).
  destruct (mixed_fits_shape E _ _ Hme) as (d_me & -> & Hkeys_me & _).
  destruct (fit_frame_shape d_lr) as (Hlen_lr & Hrows_lr & Hcols_lr).
  destruct (fit_frame_shape d_me) as (Hlen_me & Hrows_me & Hcols_me).
  assert (df_index (T (DataFrame_of_dict d_lr)) = unique (poke <$> autocal_df)) as Hidx_lr
    by (by rewrite T_DataFrame_of_dict).
  assert (df_index (T (DataFrame_of_dict d_me)) = unique (poke <$> autocal_df)) as Hidx_me
    by (by rewrite T_DataFrame_of_dict).
  split_and!; try done.
  - congruence.
  - rewrite Hidx_lr. apply unique_NoDup.
  - intros p. rewrite Hidx_lr, unique_elem_of, list_elem_of_fmap.
    split; [intros (e & -> & He); by exists e | intros (e & He & <-); by exists e].
  - rewrite !T_DataFrame_of_dict. cbn [df_columns].
    destruct d_lr, d_me; try done; by destruct autocal_df.
  - intros Hne. apply Hcols_lr. intros ->. by destruct autocal_df.
  - by apply Forall_app.
Qed.

(** When [np.polyfit] raises on the events of a poke, the independent fitter
    raises: its exception is the one of the first poke, in order of first
    appearance in the table, whose fit fails, and a run on such a table ends
    with it, after the load and before anything is shown or written. *)
Theorem independent_fit_failure (autocal_df : list (Event num)) (p : string) :
  p ∈ poke <$> autocal_df →
  (∃ e, polyfit E (single_release_vol <$> poke_rows p autocal_df)
                  (release_duration <$> poke_rows p autocal_df) = Raise e) →
  ∃ before first after e,
    unique (poke <$> autocal_df) = before ++ first :: after ∧
    Forall (λ q, ∃ fit, polyfit E (single_release_vol <$> poke_rows q autocal_df)
                                  (release_duration <$> poke_rows q autocal_df) = Ok fit)
           before ∧
    polyfit E (single_release_vol <$> poke_rows first autocal_df)
              (release_duration <$> poke_rows first autocal_df) = Raise e ∧
    get_linear_regression_parameters E autocal_df = Raise e ∧
    ∀ data_filename plot save_mixed_effects save_filename w w1,
      load_autocalibration_results E data_filename w = (Ok autocal_df, w1) →
      get_poke_calibration_parameters E data_filename plot save_mixed_effects save_filename w
      = (Raise e, w1).
Proof.
  intros Hp [e0 Hbad]. apply (proj2 (unique_elem_of _ _)) in Hp.
  assert (∃ e, poke_linear_fit E autocal_df p = Raise e) as Hraise
    by (exists e0; unfold poke_linear_fit; by rewrite Hbad).
  destruct (list_comprehension_first_Raise _ _ p Hp Hraise)
    as (before & first & after & e & Hsplit & Hbefore & Hfirst & Hc).
  assert (get_linear_regression_parameters E autocal_df = Raise e) as Hlr
    by (by rewrite get_linear_regression_parameters_eq, Hc).
  exists before, first, after, e. split_and!; [done | | | done |].
  - eapply Forall_impl; [exact Hbefore |]. intros q [f Hq]. unfold poke_linear_fit in Hq.
    destruct (polyfit E (single_release_vol <$> poke_rows q autocal_df) _) as [fit|];
      [by exists fit | done].
  - unfold poke_linear_fit in Hfirst.
    destruct (polyfit E (single_release_vol <$> poke_rows first autocal_df) _)
      as [[slope intercept]|]; [done | by injection Hfirst as ->].
  - intros data_filename plot save_mixed_effects save_filename w w1 Hload.
    by rewrite get_poke_calibration_parameters_eq, Hload, Hlr.
Qed.

(** The mixed effects fitter looks every poke of the table up in the random
    effects of the fitted model: when the model has none for some poke, the
    fitter raises [KeyError] for the first such poke in order of first
    appearance. *)
Theorem mixed_fit_missing_poke (autocal_df : list (Event num)) (mdf : MixedLMResults num)
    (p : string) :
  mixedlm_fit E autocal_df = Ok mdf →
  p ∈ poke <$> autocal_df →
  p ∉ (random_effects mdf).*1 →
  ∃ before first after,
    unique (poke <$> autocal_df) = before ++ first :: after ∧
    Forall (λ q, q ∈ (random_effects mdf).*1) before ∧
    (first ∉ (random_effects mdf).*1) ∧
    get_mixed_effects_regression_parameters E autocal_df = Raise (KeyError first).
Proof.
  intros Hfit Hp Hmissing. apply (proj2 (unique_elem_of _ _)) in Hp.
  assert (∃ e, poke_mixed_fit mdf p = Raise e) as Hraise.
  { exists (KeyError p). unfold poke_mixed_fit.
    by rewrite (proj2 (dict_get_Raise p (random_effects mdf) (KeyError p))). }
  destruct (list_comprehension_first_Raise _ _ p Hp Hraise)
    as (before & first & after & e & Hsplit & Hbefore & Hfirst & Hc).
  unfold poke_mixed_fit in Hfirst.
  destruct (dict_get first (random_effects mdf)) as [re|e'] eqn:Hget; [done |].
  injection Hfirst as ->. apply dict_get_Raise in Hget as [Hnone ->].
  exists before, first, after. split_and!; [done | | done |].
  - eapply Forall_impl; [exact Hbefore |]. intros q [f Hq]. unfold poke_mixed_fit in Hq.
    destruct (dict_get q (random_effects mdf)) as [re|] eqn:Hre; [| done].
    by eapply dict_get_Ok.
  - by rewrite get_mixed_effects_regression_parameters_eq, Hfit, Hc.
Qed.
End FitterEdges.

Lemma fit_frames_are_aligned_witness :
  df_index Demo.fits = unique (poke <$> Demo.table) ∧
  df_index Demo.fits_me = df_index Demo.fits ∧
  NoDup (df_index Demo.fits) ∧
  (∀ p, p ∈ df_index Demo.fits ↔ ∃ e, e ∈ Demo.table ∧ poke e = p) ∧
  df_columns Demo.fits_me = df_columns Demo.fits ∧
  (Demo.table ≠ [] → df_columns Demo.fits = ["s"; "i"]) ∧
  length (df_values Demo.fits) = length (df_index Demo.fits) ∧
  length (df_values Demo.fits_me) = length (df_index Demo.fits_me) ∧
  Forall (λ row, length row = 2) (df_values Demo.fits ++ df_values Demo.fits_me).
Proof.
  apply (fit_frames_are_aligned Demo.externals Demo.table Demo.fits Demo.fits_me);
    vm_compute; reflexivity.
Defined.

(** In binary64, a poke with a weighing of no release has an infinite volume,
    and the least squares routine fails on it. *)
Lemma independent_fit_failure_witness :
  ∃ before first after e,
    unique (poke <$> Binary64.stalled_table) = before ++ first :: after ∧
    Forall (λ q, ∃ fit, polyfit Binary64.externals
                          (single_release_vol <$> poke_rows q Binary64.stalled_table)
                          (release_duration <$> poke_rows q Binary64.stalled_table) = Ok fit)
           before ∧
    polyfit Binary64.externals
      (single_release_vol <$> poke_rows first Binary64.stalled_table)
      (release_duration <$> poke_rows first Binary64.stalled_table) = Raise e ∧
    get_linear_regression_parameters Binary64.externals Binary64.stalled_table = Raise e ∧
    ∀ data_filename plot save_mixed_effects save_filename w w1,
      load_autocalibration_results Binary64.externals data_filename w
      = (Ok Binary64.stalled_table, w1) →
      get_poke_calibration_parameters Binary64.externals data_filename plot
        save_mixed_effects save_filename w
      = (Raise e, w1).
Proof.
  apply (independent_fit_failure Binary64.externals Binary64.stalled_table "B2").
  - vm_compute. right. left.
  - eexists. vm_compute. reflexivity.
Defined.

Example stalled_poke_fails :
  single_release_vol <$> poke_rows "B2" Binary64.stalled_table = [infinity; 60%float] ∧
  get_linear_regression_parameters Binary64.externals Binary64.stalled_table
  = Raise (LibraryError "LinAlgError: SVD did not converge in Linear Least Squares").
Proof. split; vm_compute; reflexivity. Qed.

Lemma mixed_fit_missing_poke_witness :
  ∃ before first after,
    unique (poke <$> Demo.table) = before ++ first :: after ∧
    Forall (λ q, q ∈ ["A1"]) before ∧ (first ∉ ["A1"]) ∧
    get_mixed_effects_regression_parameters Cases.externals_partial Demo.table
    = Raise (KeyError first).
Proof.
  apply (mixed_fit_missing_poke Cases.externals_partial Demo.table
           {| fe_Intercept := 7%Q; fe_single_release_vol := 2%Q;
              random_effects := [("A1", {| re_Group := 3%Q; re_single_release_vol := 0%Q |})] |}
           "B2").
  - reflexivity.
  - vm_compute. right. left.
  - vm_compute. intros Hin. inversion Hin as [|? ? ? Hin']. inversion Hin'.
Defined.

(** In the example the fit of poke B2, the second poke of the table, is the
    one that fails, and the run ends with [KeyError] for it. *)
Example partial_model_run :
  (get_poke_calibration_parameters Cases.externals_partial None true true
     "calibration_results.txt" Demo.world).1
  = Raise (KeyError "B2").
Proof. vm_compute. reflexivity. Qed.

(** ** The entry point: effects of a run *)

Section RunEffects.
Context {num : Type} `{Arith num} (E : Externals num).



(** When the results file cannot be opened for writing, the run raises
    [OSError] after both fits: no file is changed, but the figure, when
    [plot] is set, has been shown by then. *)
Theorem unwritable_results_file (data_filename : option string) (plot save_mixed_effects : bool)
    (save_filename : string) (w w1 : World num) (autocal_df : list (Event num))
    (lr me : DataFrame num) :
  load_autocalibration_results E data_filename w = (Ok autocal_df, w1) →
  get_linear_regression_parameters E autocal_df = Ok lr →
  get_mixed_effects_regression_parameters E autocal_df = Ok me →
  writable w (os_path_join AUTOCALIBRATION_RESULTS_PATH save_filename) = false →
  ∃ w',
    get_poke_calibration_parameters E data_filename plot save_mixed_effects save_filename w
    = (Raise (OSError (os_path_join AUTOCALIBRATION_RESULTS_PATH save_filename)), w') ∧
    files w' = files w ∧ mtime w' = mtime w ∧ stdout w' = stdout w1 ∧
    figures w' = figures w ++ (if plot then [(autocal_df, me)] else []).
Proof.
  intros Hload Hlr Hme Hro. rewrite get_poke_calibration_parameters_eq.
  pose proof (load_only_printed E data_filename w) as (_ & Hfiles & Hmtime & Hwr & _ & Hfig).
  rewrite Hload in *. cbn [snd] in *. rewrite Hlr, Hme. cbn zeta. rewrite write_file_eq.
  destruct plot; cbn [show_figure snd writable]; rewrite Hwr, Hro;
    eexists; (split; [reflexivity |]);
    cbn [files mtime stdout figures]; rewrite Hfig, ?app_nil_r; by split_and!.
Qed.
End RunEffects.

Section RunSigns.
Context {num : Type} `{Arith num} (E : Externals num).
Hypothesis nabs_nopp : ∀ x : num, nabs (nopp x) = nabs x.

(** In an arithmetic whose absolute value forgets the sign, a whole run on
    logs with the sign of every weight flipped gives the same fits, writes
    the same file and shows the same figure. *)
Theorem run_ignores_weight_signs (data_filename : option string)
    (plot save_mixed_effects : bool) (save_filename : string) (w : World num) :
  get_poke_calibration_parameters (with_negated_weights E) data_filename plot
    save_mixed_effects save_filename w
  = get_poke_calibration_parameters E data_filename plot save_mixed_effects save_filename w.
Proof.
  rewrite !get_poke_calibration_parameters_eq, (load_negated E nabs_nopp). reflexivity.
Qed.
End RunSigns.


(** After the run of the example the directory of the results lists the new
    file; the directory of the logs is as it was. *)
Example run_lists_the_results_file :
  listdir (get_poke_calibration_parameters Demo.externals None true false "lr.txt" Demo.world).2
    !! AUTOCALIBRATION_RESULTS_PATH = Some ["readme.txt"; "lr.txt"] ∧
  listdir (get_poke_calibration_parameters Demo.externals None true false "lr.txt" Demo.world).2
    !! AUTOCALIBRATION_DATA_PATH = listdir Demo.world !! AUTOCALIBRATION_DATA_PATH.
Proof. split; vm_compute; reflexivity. Qed.

Lemma unwritable_results_file_witness :
  ∃ w',
    get_poke_calibration_parameters Demo.externals None true true "calibration_results.txt"
      Cases.world_readonly
    = (Raise (OSError (os_path_join AUTOCALIBRATION_RESULTS_PATH "calibration_results.txt")), w') ∧
    files w' = files Cases.world_readonly ∧ mtime w' = mtime Cases.world_readonly ∧
    stdout w' = stdout (load_autocalibration_results Demo.externals None Cases.world_readonly).2 ∧
    figures w' = figures Cases.world_readonly ++ [(Demo.table, Demo.fits_me)].
Proof.
  apply (unwritable_results_file Demo.externals None true true "calibration_results.txt"
           Cases.world_readonly _ Demo.table Demo.fits Demo.fits_me).
  - vm_compute. reflexivity.
  - vm_compute. reflexivity.
  - vm_compute. reflexivity.
  - reflexivity.
Defined.

Lemma run_ignores_weight_signs_witness :
  get_poke_calibration_parameters (with_negated_weights Demo.externals) None true true
    "calibration_results.txt" Demo.world
  = get_poke_calibration_parameters Demo.externals None true true
      "calibration_results.txt" Demo.world.
Proof.
  apply (run_ignores_weight_signs (H := Q_arith) Demo.externals Qabs_Qopp_eq).
Defined.

(** ** The line drawn on a facet of the figure *)

Lemma get_loc_Raise (label : string) (labels : list string) (e : exn) :
  get_loc label labels = Raise e ↔ (label ∉ labels) ∧ e = KeyError label.
Proof.
  induction labels as [|l labels IH]; simpl.
  - split; [intros [= <-]; split; [apply not_elem_of_nil | done] | by intros [_ ->]].
  - rewrite not_elem_of_cons. case_bool_decide as Hl.
    + split; [done | intros [[Hne _] _]; by subst].
    + destruct (get_loc label labels) as [i|e'] eqn:Hloc.
      * split; [done |]. intros [[_ Hnot] He].
        by pose proof (proj2 IH (conj Hnot He)).
      * split.
        -- intros [= ->]. destruct (proj1 IH eq_refl) as [? ?]. by split_and!.
        -- intros [[_ Hnot] He]. apply (proj2 IH). by split.
Qed.

Lemma poke_rows_head {num} (p : string) (autocal_df : list (Event num)) :
  p ∈ poke <$> autocal_df →
  ∃ first others, poke_rows p autocal_df = first :: others ∧ poke first = p.
Proof.
  intros (e & -> & He)%list_elem_of_fmap. unfold poke_rows.
  destruct (filter (λ e0, poke e0 = poke e) autocal_df) as [|first others] eqn:Hrows.
  - exfalso. by eapply (filter_nil_not_elem_of _ _ e Hrows).
  - exists first, others. split; [done |].
    assert (first ∈ filter (λ e0, poke e0 = poke e) autocal_df) as Hin
      by (rewrite Hrows; left).
    by apply list_elem_of_filter in Hin as [? _].
Qed.

Lemma Qmin_cases (x y : Q) : Qmin x y = x ∨ Qmin x y = y.
Proof. unfold Qmin, GenericMinMax.gmin. destruct (x ?= y)%Q; auto. Qed.

Lemma Qmax_cases (x y : Q) : Qmax x y = x ∨ Qmax x y = y.
Proof. unfold Qmax, GenericMinMax.gmax. destruct (x ?= y)%Q; auto. Qed.

Lemma foldl_Qmin_spec (l : list Q) (x : Q) :
  foldl Qmin x l ∈ x :: l ∧ ∀ y, y ∈ x :: l → (foldl Qmin x l <= y)%Q.
Proof.
  revert x. induction l as [|z l IH]; intros x; cbn [foldl].
  - split; [left |]. intros y ->%list_elem_of_singleton. apply Qle_refl.
  - destruct (IH (Qmin x z)) as [Hin Hlow]. split.
    + apply elem_of_cons in Hin as [-> | Hin]; [| by do 2 right].
      destruct (Qmin_cases x z) as [-> | ->]; [left | right; left].
    + assert (foldl Qmin (Qmin x z) l <= Qmin x z)%Q as Hm by (apply Hlow; left).
      intros y [-> | [-> | Hy]%elem_of_cons]%elem_of_cons.
      * eapply Qle_trans; [exact Hm | apply Q.le_min_l].
      * eapply Qle_trans; [exact Hm | apply Q.le_min_r].
      * apply Hlow. by right.
Qed.

Lemma foldl_Qmax_spec (l : list Q) (x : Q) :
  foldl Qmax x l ∈ x :: l ∧ ∀ y, y ∈ x :: l → (y <= foldl Qmax x l)%Q.
Proof.
  revert x. induction l as [|z l IH]; intros x; cbn [foldl].
  - split; [left |]. intros y ->%list_elem_of_singleton. apply Qle_refl.
  - destruct (IH (Qmax x z)) as [Hin Hup]. split.
    + apply elem_of_cons in Hin as [-> | Hin]; [| by do 2 right].
      destruct (Qmax_cases x z) as [-> | ->]; [left | right; left].
    + assert (Qmax x z <= foldl Qmax (Qmax x z) l)%Q as Hm by (apply Hup; left).
      intros y [-> | [-> | Hy]%elem_of_cons]%elem_of_cons.
      * eapply Qle_trans; [apply Q.le_max_l | exact Hm].
      * eapply Qle_trans; [apply Q.le_max_r | exact Hm].
      * apply Hup. by right.
Qed.

Section FacetLine.
Context {num : Type} `{Arith num} `{ArithOrder num} (E : Externals num).

(** On the facet of a poke of the table, with the frame the mixed effects
    fitter returned for the table, the function that draws the fitted line
    does not raise: it draws the segment between two points of the line
    [intercept + slope * x] with the stored slope and intercept of that
    poke. *)
Theorem facet_line_of_fitted_poke (autocal_df : list (Event num)) (me : DataFrame num)
    (p : string) :
  get_mixed_effects_regression_parameters E autocal_df = Ok me →
  p ∈ poke <$> autocal_df →
  ∃ slope intercept xmin xmax,
    loc me p "s" = Ok slope ∧ loc me p "i" = Ok intercept ∧
    plot_mixed_effects_fit (poke_rows p autocal_df) me
    = Ok ((xmin, nadd intercept (nmul slope xmin)), (xmax, nadd intercept (nmul slope xmax))).
Proof.
  intros Hme Hp.
  destruct (mixed_fit_at E autocal_df me p Hme Hp) as (mdf & re & _ & _ & Hs & Hi).
  destruct (poke_rows_head p autocal_df Hp) as (first & others & -> & Hfirst).
  do 4 eexists. split_and!; [exact Hs | exact Hi |].
  unfold plot_mixed_effects_fit. py_unfold. by rewrite Hfirst, Hi, Hs.
Qed.

(** The line is looked up under the poke of the first event of the facet: a
    facet whose poke is no row of the frame raises [KeyError] for it. *)
Theorem facet_line_unknown_poke (first : Event num) (others : list (Event num))
    (poke2fit_me_params : DataFrame num) :
  poke first ∉ df_index poke2fit_me_params →
  plot_mixed_effects_fit (first :: others) poke2fit_me_params = Raise (KeyError (poke first)).
Proof.
  intros Hnot. unfold plot_mixed_effects_fit, loc. py_unfold.
  by rewrite (proj2 (get_loc_Raise (poke first) (df_index poke2fit_me_params)
                       (KeyError (poke first)))).
Qed.
End FacetLine.

(** In exact arithmetic the segment spans the facet: its ends are at the
    least and at the greatest volume of the events given, both volumes of
    the facet, and they lie on the line of the poke of the first event. *)
Theorem facet_line_spans_volumes (data : list (Event Q)) (poke2fit_me_params : DataFrame Q)
    (xmin ymin xmax ymax : Q) :
  plot_mixed_effects_fit data poke2fit_me_params = Ok ((xmin, ymin), (xmax, ymax)) →
  xmin ∈ single_release_vol <$> data ∧ xmax ∈ single_release_vol <$> data ∧
  (∀ e, e ∈ data → (xmin <= single_release_vol e <= xmax)%Q) ∧
  ∃ first others slope intercept,
    data = first :: others ∧
    loc poke2fit_me_params (poke first) "s" = Ok slope ∧
    loc poke2fit_me_params (poke first) "i" = Ok intercept ∧
    ymin = (intercept + slope * xmin)%Q ∧ ymax = (intercept + slope * xmax)%Q.
Proof.
  destruct data as [|first others]; [done |]. unfold plot_mixed_effects_fit. py_unfold.
  destruct (loc poke2fit_me_params (poke first) "i") as [intercept|] eqn:Hi; [| done].
  destruct (loc poke2fit_me_params (poke first) "s") as [slope|] eqn:Hs; [| done].
  intros [= <- <- <- <-]. cbn [nmin nmax Q_order nadd nmul Q_arith].
  destruct (foldl_Qmin_spec (single_release_vol <$> others) (single_release_vol first))
    as [Hmin_in Hmin].
  destruct (foldl_Qmax_spec (single_release_vol <$> others) (single_release_vol first))
    as [Hmax_in Hmax].
  rewrite fmap_cons. split_and!; [done | done | |].
  - intros e He. split; [apply Hmin | apply Hmax];
      rewrite <- fmap_cons; apply list_elem_of_fmap; by exists e.
  - by exists first, others, slope, intercept.
Qed.

Lemma facet_line_of_fitted_poke_witness :
  ∃ slope intercept xmin xmax,
    loc Demo.fits_me "B2" "s" = Ok slope ∧ loc Demo.fits_me "B2" "i" = Ok intercept ∧
    plot_mixed_effects_fit (poke_rows "B2" Demo.table) Demo.fits_me
    = Ok ((xmin, nadd intercept (nmul slope xmin)), (xmax, nadd intercept (nmul slope xmax))).
Proof.
  apply (facet_line_of_fitted_poke Demo.externals Demo.table Demo.fits_me "B2").
  - vm_compute. reflexivity.
  - vm_compute. right. left.
Defined.

Lemma facet_line_unknown_poke_witness :
  plot_mixed_effects_fit (poke_rows "C3" Cases.sparse_table) Demo.fits = Raise (KeyError "C3").
Proof.
  apply (facet_line_unknown_poke
           {| poke := "C3"; release_duration := 70%Q; release_weight := (3 # 10)%Q;
              n_release := 10%Q; single_release_vol := ((3 # 10) / 10 * 1000)%Q |} [] Demo.fits).
  vm_compute. intros Hin. inversion Hin as [|? ? ? Hin']. inversion Hin' as [|? ? ? Hin''].
  inversion Hin''.
Defined.

Lemma facet_line_spans_volumes_witness :
  (45%Q : Q) ∈ single_release_vol <$> Cases.facet ∧
  (90%Q : Q) ∈ single_release_vol <$> Cases.facet ∧
  (∀ e, e ∈ Cases.facet → (45 <= single_release_vol e <= 90)%Q) ∧
  ∃ first others slope intercept,
    Cases.facet = first :: others ∧
    loc Demo.fits (poke first) "s" = Ok slope ∧
    loc Demo.fits (poke first) "i" = Ok intercept ∧
    (100%Q : Q) = (intercept + slope * 45)%Q ∧ (190%Q : Q) = (intercept + slope * 90)%Q.
Proof.
  apply (facet_line_spans_volumes Cases.facet Demo.fits 45 100 90 190).
  vm_compute. reflexivity.
Defined.

(** ** The stored parameters in exact arithmetic *)



(** ** What a run returns and where it writes *)

Section RunResults.
Context {num : Type} `{Arith num} (E : Externals num).

(** A table the loader returns has at least one event. *)
Lemma load_nonempty (data_filename : option string) (w w' : World num)
    (autocal_df : list (Event num)) :
  load_autocalibration_results E data_filename w = (Ok autocal_df, w') → autocal_df ≠ [].
Proof.
  destruct (load_cases E data_filename w) as [[e ->] | (names & f & _ & _ & _ & ->)]; [done |].
  rewrite read_events_eq. cbn zeta.
  destruct (files w !! _) as [text|]; [| done].
  destruct (read_csv E text) as [rows|]; [| done].
  destruct (list_comprehension _ _) as [raws|]; [| done].
  destruct raws as [|r raws]; [done |]. cbn [DataFrame_of_events].
  by intros [= <- _].
Qed.

Lemma unique_nonempty (l : list string) : l ≠ [] → unique l ≠ [].
Proof. by destruct l. Qed.

(** The two frames a run returns are never empty: they have the same rows,
    at least one, and the columns ["s"] and ["i"]. *)
Theorem run_frames_have_pokes (data_filename : option string) (plot save_mixed_effects : bool)
    (save_filename : string) (w w' : World num) (lr me : DataFrame num) :
  get_poke_calibration_parameters E data_filename plot save_mixed_effects save_filename w
  = (Ok (lr, me), w') →
  df_index lr ≠ [] ∧ df_index me = df_index lr ∧
  df_columns lr = ["s"; "i"] ∧ df_columns me = ["s"; "i"] ∧
  length (df_values lr) = length (df_index lr) ∧
  length (df_values me) = length (df_index lr).
Proof.
  rewrite get_poke_calibration_parameters_eq.
  destruct (load_autocalibration_results E data_filename w) as [[autocal_df|e1] w1] eqn:Hload;
    [| done].
  apply load_nonempty in Hload.
  destruct (get_linear_regression_parameters E autocal_df) as [lr0|] eqn:Hlr; [| done].
  destruct (get_mixed_effects_regression_parameters E autocal_df) as [me0|] eqn:Hme; [| done].
  cbn zeta. destruct (write_file _ _ _) as [[[]|] w3]; [| done]. intros [= <- <- _].
  destruct (linear_fits_shape E _ _ Hlr) as (d_lr & -> & Hkeys_lr & _).
  destruct (mixed_fits_shape E _ _ Hme) as (d_me & -> & Hkeys_me & _).
  assert (unique (poke <$> autocal_df) ≠ []) as Hne
    by (apply unique_nonempty; by destruct autocal_df).
  destruct (fit_frame_shape d_lr) as (Hlen_lr & _ & Hcols_lr).
  destruct (fit_frame_shape d_me) as (Hlen_me & _ & Hcols_me).
  assert (df_index (T (DataFrame_of_dict d_lr)) = unique (poke <$> autocal_df)) as Hidx_lr
    by (by rewrite T_DataFrame_of_dict).
  assert (df_index (T (DataFrame_of_dict d_me)) = unique (poke <$> autocal_df)) as Hidx_me
    by (by rewrite T_DataFrame_of_dict).
  split_and!.
  - by rewrite Hidx_lr.
  - congruence.
  - apply Hcols_lr. intros ->. by rewrite <- Hkeys_lr in Hne.
  - apply Hcols_me. intros ->. by rewrite <- Hkeys_me in Hne.
  - done.
  - congruence.
Qed.

End RunResults.

Lemma run_frames_have_pokes_witness :
  df_index Demo.fits ≠ [] ∧ df_index Demo.fits_me = df_index Demo.fits ∧
  df_columns Demo.fits = ["s"; "i"] ∧ df_columns Demo.fits_me = ["s"; "i"] ∧
  length (df_values Demo.fits) = length (df_index Demo.fits) ∧
  length (df_values Demo.fits_me) = length (df_index Demo.fits).
Proof.
  apply (run_frames_have_pokes Demo.externals None true true "calibration_results.txt"
           Demo.world
           (get_poke_calibration_parameters Demo.externals None true true
              "calibration_results.txt" Demo.world).2
           Demo.fits Demo.fits_me).
  vm_compute. reflexivity.
Defined.

